(** * ASME VIII Div.1 nozzle calculator: the compliance engine

    A shallow embedding of the calculation engine of [nozzle_calculator.py]
    (everything above the Streamlit user interface) and the properties of
    its specification.

    Numbers are Python floats, that is IEEE 754 binary64, and are modelled
    by Rocq's primitive floats, which are the same format with the same
    rounding.  The one operation that IEEE 754 does not fix is the power
    [x ** 2], which CPython hands to the C library's [pow]: the library is a
    parameter of the model ([c_library]).  Python exceptions are values of
    [exn]; a function that may raise returns a [result].  The report dictionary that the
    orchestrator fills step by step is a record threaded through a small
    state-and-exception monad, so that what has been stored before an
    exception is still there when the handler runs. *)

From Stdlib Require Import Floats Lia.
From stdpp Require Import base strings list gmap.

Set Warnings "-inexact-float".

Open Scope string_scope.

(** ** Exceptions and results *)

Inductive exn : Type :=
  | ValueError (msg : string)
  | ZeroDivisionError (msg : string)
  | OverflowError (msg : string)
  | TypeError (msg : string)
  | IndexError (msg : string)
  | KeyError (key : string).

(** [str(e)]: the message of the exception; a [KeyError] prints the [repr]
    of the key. *)
Definition str_exn (e : exn) : string :=
  match e with
  | ValueError m | ZeroDivisionError m | OverflowError m | TypeError m
  | IndexError m => m
  | KeyError k => "'" +:+ k +:+ "'"
  end.

Inductive result (A : Type) : Type :=
  | Ok (a : A)
  | Raise (e : exn).
Arguments Ok {A} a.
Arguments Raise {A} e.

#[global] Instance result_ret : MRet result := fun A a => Ok a.
#[global] Instance result_bind : MBind result := fun A B f m =>
  match m with
  | Ok a => f a
  | Raise e => Raise e
  end.

Definition is_Ok {A} (m : result A) : bool :=
  match m with Ok _ => true | Raise _ => false end.

(** ** Python float arithmetic

    [+], [-], [*] and the comparisons of two floats never raise; they are the
    primitive operations.  The others are below. *)

(** [x / y]: raises on a zero divisor (of either sign); a NaN divisor is not
    zero. *)
Definition float_truediv (x y : float) : result float :=
  if (y =? 0)%float then Raise (ZeroDivisionError "float division by zero")
  else Ok (x / y)%float.

(** The value of [errno] after a call of the C library: left at zero, a
    range error, or a domain error. *)
Inductive errno : Type :=
  | ENONE
  | ERANGE
  | EDOM.

(** The C library that the interpreter is linked with.  [pow_2 x] is what
    [pow(x, 2.0)] returns and the [errno] it leaves, for the arguments the
    interpreter passes on: finite and positive.  The standard does not say
    how [pow] rounds, so its value is not computed here; it is taken to be
    within one unit in the last place of the correctly rounded square
    [x * x] (the accuracy the common libraries document), not to be
    negative, and to come with a range error only when it is infinite or
    zero. *)
Class c_library : Type := {
  pow_2 : float → float * errno;
  pow_2_near (x : float) :
    (0 <? x)%float = true → is_finite x = true →
    (pow_2 x).1 = (x * x)%float ∨ (pow_2 x).1 = next_down (x * x)
    ∨ (pow_2 x).1 = next_up (x * x);
  pow_2_sign (x : float) :
    (0 <? x)%float = true → is_finite x = true →
    ((pow_2 x).1 <? 0)%float = false;
  pow_2_errno (x : float) :
    (0 <? x)%float = true → is_finite x = true →
    (pow_2 x).2 = ENONE
    ∨ ((pow_2 x).2 = ERANGE
       ∧ (is_infinity (pow_2 x).1 = true ∨ ((pow_2 x).1 =? 0)%float = true))
}.

(** A library whose [pow] returns the correctly rounded square and reports
    through the floating-point flags only.  The evaluations at one concrete
    input, further down, are made on it. *)
#[global] Instance exact_library : c_library.
Proof.
  refine {| pow_2 x := ((x * x)%float, ENONE) |}.
  - intros x _ _. by left.
  - intros x _ _. cbn [fst].
    rewrite FloatAxioms.ltb_spec, FloatAxioms.mul_spec. unfold SFltb, SF64mul.
    destruct (Prim2SF x) as [[]|[]| |s m e]; try reflexivity.
    cbn [SFmul]. replace (xorb s s) with false by by destruct s.
    unfold binary_round_aux.
    destruct (shr_fexp _ _ _ _ _) as [mrs e'].
    destruct (shr_fexp _ _ _ _ _) as [mrs' e''].
    destruct (shr_m mrs'); [reflexivity| |reflexivity].
    by destruct (Z.leb _ _).
  - intros x _ _. by left.
Defined.

(** [x ** 2], that is [float_pow] with the exponent 2.0.  The interpreter
    answers itself for a NaN, an infinity, a zero and a base of absolute
    value one; otherwise it replaces a negative base by its absolute value
    (the exponent is an even integer, so the result keeps its sign) and
    calls the library.  After the call an infinite result counts as a range
    error, a range error with a zero result is dropped, and what is left in
    [errno] is raised: [OverflowError] for a range error, [ValueError] for
    any other. *)
Definition float_pow2 {libm : c_library} (x : float) : result float :=
  if is_nan x then Ok x
  else if is_infinity x then Ok (abs x)
  else if (x =? 0)%float then Ok 0%float
  else
    let iv := if (x <? 0)%float then (- x)%float else x in
    if (iv =? 1)%float then Ok 1%float
    else
      let '(ix, err) := pow_2 iv in
      let err :=
        match err with
        | ENONE => if is_infinity ix then ERANGE else ENONE
        | ERANGE => if (ix =? 0)%float then ENONE else ERANGE
        | EDOM => EDOM
        end in
      match err with
      | ENONE => Ok ix
      | ERANGE => Raise (OverflowError "(34, 'Numerical result out of range')")
      | EDOM => Raise (ValueError "(33, 'Numerical argument out of domain')")
      end.

(** [math.sqrt(x)]: a domain error below zero; NaN and +inf pass through. *)
Definition math_sqrt (x : float) : result float :=
  if (x <? 0)%float then Raise (ValueError "math domain error")
  else Ok (sqrt x).

(** [math.pi] *)
Definition math_pi : float := 3.141592653589793%float.

(** [x >= y] *)
Definition float_ge (x y : float) : bool := (y <=? x)%float.

(** [x > y] *)
Definition float_gt (x y : float) : bool := (y <? x)%float.

(** [max(a, b)] and [max(a, b, c)]: the builtin keeps the first argument and
    replaces it by a later one only when [later > kept]. *)
Definition py_max2 (a b : float) : float := if float_gt b a then b else a.
Definition py_max3 (a b c : float) : float := py_max2 (py_max2 a b) c.

(** ** Constants and configuration *)

Definition UG16_MINIMUMS : gmap string float :=
  list_to_map
    [ ("Pressure Vessel (Standard)", 1.5%float);
      ("Unfired Steam Boiler", 6.35%float);
      ("Non-Code Construction", 0.0%float) ].

(** A row of the nominal-pipe-size table: label, nominal size, outer
    diameter, standard wall thickness. *)
Record nps_row : Type := NpsRow {
  row_nps : string;
  row_dn : nat;
  row_od : float;
  row_thickness : float
}.

Definition UG45_TABLE : list nps_row :=
  [ NpsRow "1/8" 6 10.29 1.51; NpsRow "1/4" 8 13.72 1.96;
    NpsRow "3/8" 10 17.12 2.02; NpsRow "1/2" 15 21.34 2.42;
    NpsRow "3/4" 20 26.67 2.51; NpsRow "1" 25 33.40 2.96;
    NpsRow "1¬º" 32 42.16 3.12; NpsRow "1¬Ω" 40 48.26 3.22;
    NpsRow "2" 50 60.33 3.42; NpsRow "2¬Ω" 65 73.03 4.52;
    NpsRow "3" 80 88.90 4.80; NpsRow "3¬Ω" 90 101.60 5.02;
    NpsRow "4" 100 114.30 5.27; NpsRow "5" 125 141.30 5.73;
    NpsRow "6" 150 168.28 6.22; NpsRow "8" 200 219.08 7.16;
    NpsRow "10" 250 273.05 8.11; NpsRow "12" 300 323.85 8.34 ]%float.

Definition ALLOWABLE_STRESS_FACTOR : float := 1.5%float.
Definition STRESS_INTENSITY_FACTOR : float := 3.0%float.

(** ** Helper functions *)

(** [" + ".join(parts)] *)
Definition join (sep : string) (parts : list string) : string :=
  String.concat sep parts.

Definition get_ug16_min_thickness
    (equipment_type service_type : string)
    (custom_min_enabled : bool) (custom_min : float) : float * string :=
  let equipment_min := default 0.0%float (UG16_MINIMUMS !! equipment_type) in
  let service_min :=
    if bool_decide (service_type ∈ ["Water"; "Compressed Air"; "Steam"])
    then 2.5%float else 0.0%float in
  let custom := if custom_min_enabled then custom_min else 0.0%float in
  let min_thickness := py_max3 equipment_min service_min custom in
  let ref_parts : list string := [] in
  let ref_parts :=
    if float_gt equipment_min 0
    then (ref_parts ++ ["UG-16 for " +:+ equipment_type])%list else ref_parts in
  let ref_parts :=
    if float_gt service_min 0
    then (ref_parts ++ ["UG-16(b) for " +:+ service_type])%list else ref_parts in
  let ref_parts :=
    if custom_min_enabled && float_gt custom 0
    then (ref_parts ++ ["Custom specified minimum"])%list else ref_parts in
  let ref :=
    match ref_parts with
    | [] => "No UG-16 requirement"
    | _ => join " + " ref_parts
    end in
  (min_thickness, ref).

(** ** Calculation engine: the formula library *)

Definition calculate_shell_thickness (P D S E : float) : result float :=
  float_truediv (P * D) (2 * S * E - 1.2 * P)%float.

Definition calculate_head_thickness
    (P D S E : float) (head_type : string) : result float :=
  if bool_decide (head_type = "Hemispherical")
  then float_truediv (P * D) (4 * S * E - 0.4 * P)%float
  else if bool_decide (head_type = "Ellipsoidal")
  then float_truediv (P * D) (2 * S * E - 0.2 * P)%float
  else if bool_decide (head_type = "Torispherical")
  then float_truediv (0.885 * P * D) (S * E - 0.1 * P)%float
  else Raise (ValueError "Invalid head type").

Definition calculate_nozzle_thickness (P d S E : float) : result float :=
  float_truediv (P * d) (2 * S * E - 1.2 * P)%float.

(** ** The input dictionary

    [inputs] is a Python dict with string keys.  The form delivers a float
    for every numeric field, a string for the three categories and a bool
    for the override flag; the accessors below read a key at the kind the
    code uses it at.  A missing key raises [KeyError], as indexing does.  A
    value of another kind raises [TypeError] here: Python's coercions on
    such values are outside this model, and every statement on a complete
    input below is on a dictionary built by [to_dict], where they do not
    arise. *)

Inductive value : Type :=
  | VFloat (f : float)
  | VStr (s : string)
  | VBool (b : bool).

Definition getitem (inputs : gmap string value) (key : string) : result value :=
  match inputs !! key with
  | Some v => Ok v
  | None => Raise (KeyError key)
  end.

Definition num (inputs : gmap string value) (key : string) : result float :=
  v ← getitem inputs key;
  match v with
  | VFloat f => Ok f
  | _ => Raise (TypeError "unsupported operand type(s)")
  end.

Definition text (inputs : gmap string value) (key : string) : result string :=
  v ← getitem inputs key;
  match v with
  | VStr s => Ok s
  | _ => Raise (TypeError "unsupported operand type(s)")
  end.

Definition flag (inputs : gmap string value) (key : string) : result bool :=
  v ← getitem inputs key;
  match v with
  | VBool b => Ok b
  | _ => Raise (TypeError "unsupported operand type(s)")
  end.

(** ** The report dictionary

    Every section starts as the empty dict [{}], which is [None] (or a record
    of [None]s where the code stores the keys one at a time).  The key
    ['compliant'] exists only once the aggregation has run. *)

(** [results['calculations'][component]] *)
Record Thickness : Type := {
  required : float;
  actual : float
}.

Record Calculations : Type := {
  calc_shell : option Thickness;
  calc_head : option Thickness;
  calc_nozzle : option Thickness
}.

(** [results['ug16'][component]] *)
Record MinCheck : Type := {
  min_required : float;
  min_actual : float;
  min_status : bool
}.

Record UG16 : Type := {
  ug16_shell : MinCheck;
  ug16_head : MinCheck;
  ug16_nozzle : MinCheck;
  ug16_reference : string
}.

Record UG45 : Type := {
  ug45_required : float;
  ug45_actual : float;
  ug45_status : bool;
  matched_size : string
}.

Record Stresses : Type := {
  stress_shell : option float;
  stress_head : option float;
  stress_nozzle : option float
}.

Record Loads : Type := {
  axial : float;
  bending : float;
  shear : float;
  equivalent : float;
  allowable : float;
  load_status : bool
}.

Record Report : Type := {
  r_steps : list string;
  r_warnings : list string;
  r_errors : list string;
  r_ug16 : option UG16;
  r_ug37 : option unit;
  r_ug45 : option UG45;
  r_head : option unit;
  r_stresses : Stresses;
  r_loads : option Loads;
  r_calculations : Calculations;
  r_compliant : option bool
}.

Definition no_stresses : Stresses :=
  {| stress_shell := None; stress_head := None; stress_nozzle := None |}.

Definition no_calculations : Calculations :=
  {| calc_shell := None; calc_head := None; calc_nozzle := None |}.

Definition initial_report : Report :=
  {| r_steps := []; r_warnings := []; r_errors := [];
     r_ug16 := None; r_ug37 := None; r_ug45 := None; r_head := None;
     r_stresses := no_stresses; r_loads := None;
     r_calculations := no_calculations; r_compliant := None |}.

Definition set_errors (v : list string) (r : Report) : Report :=
  {| r_steps := r_steps r; r_warnings := r_warnings r; r_errors := v;
     r_ug16 := r_ug16 r; r_ug37 := r_ug37 r; r_ug45 := r_ug45 r;
     r_head := r_head r; r_stresses := r_stresses r; r_loads := r_loads r;
     r_calculations := r_calculations r; r_compliant := r_compliant r |}.

Definition set_ug16 (v : UG16) (r : Report) : Report :=
  {| r_steps := r_steps r; r_warnings := r_warnings r; r_errors := r_errors r;
     r_ug16 := Some v; r_ug37 := r_ug37 r; r_ug45 := r_ug45 r;
     r_head := r_head r; r_stresses := r_stresses r; r_loads := r_loads r;
     r_calculations := r_calculations r; r_compliant := r_compliant r |}.

Definition set_ug45 (v : UG45) (r : Report) : Report :=
  {| r_steps := r_steps r; r_warnings := r_warnings r; r_errors := r_errors r;
     r_ug16 := r_ug16 r; r_ug37 := r_ug37 r; r_ug45 := Some v;
     r_head := r_head r; r_stresses := r_stresses r; r_loads := r_loads r;
     r_calculations := r_calculations r; r_compliant := r_compliant r |}.

Definition set_stresses (v : Stresses) (r : Report) : Report :=
  {| r_steps := r_steps r; r_warnings := r_warnings r; r_errors := r_errors r;
     r_ug16 := r_ug16 r; r_ug37 := r_ug37 r; r_ug45 := r_ug45 r;
     r_head := r_head r; r_stresses := v; r_loads := r_loads r;
     r_calculations := r_calculations r; r_compliant := r_compliant r |}.

Definition set_loads (v : option Loads) (r : Report) : Report :=
  {| r_steps := r_steps r; r_warnings := r_warnings r; r_errors := r_errors r;
     r_ug16 := r_ug16 r; r_ug37 := r_ug37 r; r_ug45 := r_ug45 r;
     r_head := r_head r; r_stresses := r_stresses r; r_loads := v;
     r_calculations := r_calculations r; r_compliant := r_compliant r |}.

Definition set_calculations (v : Calculations) (r : Report) : Report :=
  {| r_steps := r_steps r; r_warnings := r_warnings r; r_errors := r_errors r;
     r_ug16 := r_ug16 r; r_ug37 := r_ug37 r; r_ug45 := r_ug45 r;
     r_head := r_head r; r_stresses := r_stresses r; r_loads := r_loads r;
     r_calculations := v; r_compliant := r_compliant r |}.

Definition set_compliant (v : bool) (r : Report) : Report :=
  {| r_steps := r_steps r; r_warnings := r_warnings r; r_errors := r_errors r;
     r_ug16 := r_ug16 r; r_ug37 := r_ug37 r; r_ug45 := r_ug45 r;
     r_head := r_head r; r_stresses := r_stresses r; r_loads := r_loads r;
     r_calculations := r_calculations r; r_compliant := Some v |}.

(** ** Statements that mutate a dictionary and may raise

    [M S A]: a computation over a mutable [S] that either returns an [A] or
    raises, and in both cases leaves the state as it was at that point. *)

Definition M (S A : Type) : Type := S → result A * S.

#[global] Instance M_ret {S} : MRet (M S) := fun A a s => (Ok a, s).
#[global] Instance M_bind {S} : MBind (M S) := fun A B f m s =>
  match m s with
  | (Ok a, s') => f a s'
  | (Raise e, s') => (Raise e, s')
  end.

Definition lift {S A} (m : result A) : M S A := fun s => (m, s).
Definition modify {S} (f : S → S) : M S unit := fun s => (Ok tt, f s).
Definition get_state {S} : M S S := fun s => (Ok s, s).

(** ** Stress analysis

    The function works on a dictionary of its own, created with the single
    key ['stresses'].  [sr_errors] is that dictionary's ['errors'] entry:
    [None], since the key is never created. *)

Record stress_results : Type := {
  sr_stresses : Stresses;
  sr_errors : option (list string)
}.

Definition set_stress_shell (v : float) (r : stress_results) : stress_results :=
  {| sr_stresses :=
       {| stress_shell := Some v;
          stress_head := stress_head (sr_stresses r);
          stress_nozzle := stress_nozzle (sr_stresses r) |};
     sr_errors := sr_errors r |}.

Definition set_stress_head (v : float) (r : stress_results) : stress_results :=
  {| sr_stresses :=
       {| stress_shell := stress_shell (sr_stresses r);
          stress_head := Some v;
          stress_nozzle := stress_nozzle (sr_stresses r) |};
     sr_errors := sr_errors r |}.

Definition set_stress_nozzle (v : float) (r : stress_results) : stress_results :=
  {| sr_stresses :=
       {| stress_shell := stress_shell (sr_stresses r);
          stress_head := stress_head (sr_stresses r);
          stress_nozzle := Some v |};
     sr_errors := sr_errors r |}.

(** The body of the [try]. *)
Definition stress_try (inputs : gmap string value) : M stress_results unit :=
  D ← lift (num inputs "D");
  let R := (D / 2)%float in
  P ← lift (num inputs "P_int");
  t ← lift (num inputs "t");
  CA ← lift (num inputs "CA");
  E ← lift (num inputs "E_shell");
  shell ← lift (float_truediv (P * R) ((t - CA) * E));
  modify (set_stress_shell shell);;
  P ← lift (num inputs "P_int");
  D ← lift (num inputs "D");
  th ← lift (num inputs "th_head");
  CA ← lift (num inputs "CA");
  E ← lift (num inputs "E_head");
  head ← lift (float_truediv (P * D) (4 * (th - CA) * E));
  modify (set_stress_head head);;
  P ← lift (num inputs "P_int");
  d ← lift (num inputs "d");
  tn ← lift (num inputs "tn");
  CA ← lift (num inputs "CA");
  E ← lift (num inputs "E_nozzle");
  nozzle ← lift (float_truediv (P * (d / 2)) ((tn - CA) * E));
  modify (set_stress_nozzle nozzle).

(** The handler appends to [results['errors']]: indexing the missing key
    raises [KeyError], which leaves the function. *)
Definition perform_stress_analysis
    (inputs : gmap string value) : result stress_results :=
  let results := {| sr_stresses := no_stresses; sr_errors := None |} in
  match stress_try inputs results with
  | (Ok _, results) => Ok results
  | (Raise e, results) =>
      match sr_errors results with
      | Some errors =>
          Ok {| sr_stresses := sr_stresses results;
                sr_errors :=
                  Some (errors ++ ["Stress analysis error: " +:+ str_exn e])%list |}
      | None => Raise (KeyError "errors")
      end
  end.

(** ** Load analysis *)

Record load_results : Type := {
  lr_loads : option Loads;
  lr_errors : option (list string)
}.

Definition load_try {libm : c_library}
    (inputs : gmap string value) : M load_results unit :=
  dn ← lift (num inputs "d");
  tn0 ← lift (num inputs "tn");
  CA ← lift (num inputs "CA");
  let tn := (tn0 - CA)%float in
  Fz ← lift (num inputs "Fz");
  axial_stress ← lift (float_truediv Fz (math_pi * dn * tn));
  Mx ← lift (num inputs "Mx");
  Mx2 ← lift (float_pow2 Mx);
  My ← lift (num inputs "My");
  My2 ← lift (float_pow2 My);
  m ← lift (math_sqrt (Mx2 + My2));
  dn2 ← lift (float_pow2 dn);
  bending_stress ← lift (float_truediv (4 * m) (math_pi * dn2 * tn));
  Fx ← lift (num inputs "Fx");
  Fx2 ← lift (float_pow2 Fx);
  Fy ← lift (num inputs "Fy");
  Fy2 ← lift (float_pow2 Fy);
  f ← lift (math_sqrt (Fx2 + Fy2));
  shear_stress ← lift (float_truediv f (math_pi * dn * tn));
  ab2 ← lift (float_pow2 (axial_stress + bending_stress));
  s2 ← lift (float_pow2 shear_stress);
  equivalent_stress ← lift (math_sqrt (ab2 + 3 * s2));
  S ← lift (num inputs "S_nozzle");
  S' ← lift (num inputs "S_nozzle");
  modify (fun r =>
    {| lr_loads :=
         Some {| axial := axial_stress;
                 bending := bending_stress;
                 shear := shear_stress;
                 equivalent := equivalent_stress;
                 allowable := S * ALLOWABLE_STRESS_FACTOR;
                 load_status :=
                   (equivalent_stress <=? S' * ALLOWABLE_STRESS_FACTOR)%float |};
       lr_errors := lr_errors r |}).

Definition perform_load_analysis {libm : c_library}
    (inputs : gmap string value) : result load_results :=
  let results := {| lr_loads := None; lr_errors := None |} in
  match load_try inputs results with
  | (Ok _, results) => Ok results
  | (Raise e, results) =>
      match lr_errors results with
      | Some errors =>
          Ok {| lr_loads := lr_loads results;
                lr_errors :=
                  Some (errors ++ ["Load analysis error: " +:+ str_exn e])%list |}
      | None => Raise (KeyError "errors")
      end
  end.

(** ** The orchestrator *)

Definition required_keys : list string :=
  [ "P_int"; "D"; "d"; "t"; "tn"; "th_head"; "CA";
    "nozzle_od"; "E_shell"; "E_head"; "E_nozzle";
    "S_shell"; "S_head"; "S_nozzle"; "equipment_type";
    "head_type"; "Fx"; "Fy"; "Fz"; "Mx"; "My"; "Mz";
    "service_type"; "custom_min_enabled"; "custom_min" ].

(** [key not in inputs] *)
Definition not_in (inputs : gmap string value) (key : string) : Prop :=
  ¬ is_Some (inputs !! key).

#[global] Instance not_in_dec inputs key : Decision (not_in inputs key).
Proof. unfold not_in. apply _. Defined.

Definition validate (inputs : gmap string value) : M Report unit :=
  let missing := filter (not_in inputs) required_keys in
  match missing with
  | [] => mret tt
  | _ => lift (Raise (ValueError ("Missing inputs: " +:+ join ", " missing)))
  end.

Definition set_calc_shell (v : Thickness) (r : Report) : Report :=
  set_calculations
    {| calc_shell := Some v;
       calc_head := calc_head (r_calculations r);
       calc_nozzle := calc_nozzle (r_calculations r) |} r.

Definition set_calc_head (v : Thickness) (r : Report) : Report :=
  set_calculations
    {| calc_shell := calc_shell (r_calculations r);
       calc_head := Some v;
       calc_nozzle := calc_nozzle (r_calculations r) |} r.

Definition set_calc_nozzle (v : Thickness) (r : Report) : Report :=
  set_calculations
    {| calc_shell := calc_shell (r_calculations r);
       calc_head := calc_head (r_calculations r);
       calc_nozzle := Some v |} r.

Definition shell_step (inputs : gmap string value) : M Report unit :=
  P ← lift (num inputs "P_int");
  D ← lift (num inputs "D");
  S ← lift (num inputs "S_shell");
  E ← lift (num inputs "E_shell");
  req ← lift (calculate_shell_thickness P D S E);
  t ← lift (num inputs "t");
  CA ← lift (num inputs "CA");
  modify (set_calc_shell {| required := req; actual := t - CA |}).

Definition head_step (inputs : gmap string value) : M Report unit :=
  P ← lift (num inputs "P_int");
  D ← lift (num inputs "D");
  S ← lift (num inputs "S_head");
  E ← lift (num inputs "E_head");
  ty ← lift (text inputs "head_type");
  req ← lift (calculate_head_thickness P D S E ty);
  th ← lift (num inputs "th_head");
  CA ← lift (num inputs "CA");
  modify (set_calc_head {| required := req; actual := th - CA |}).

Definition nozzle_step (inputs : gmap string value) : M Report unit :=
  P ← lift (num inputs "P_int");
  d ← lift (num inputs "d");
  S ← lift (num inputs "S_nozzle");
  E ← lift (num inputs "E_nozzle");
  req ← lift (calculate_nozzle_thickness P d S E);
  tn ← lift (num inputs "tn");
  CA ← lift (num inputs "CA");
  modify (set_calc_nozzle {| required := req; actual := tn - CA |}).

(** One entry of [results['ug16']]: actual is read twice, as in the code. *)
Definition min_check (inputs : gmap string value) (min_thickness : float)
    (key : string) : result MinCheck :=
  t ← num inputs key;
  CA ← num inputs "CA";
  t' ← num inputs key;
  CA' ← num inputs "CA";
  mret {| min_required := min_thickness;
          min_actual := t - CA;
          min_status := float_ge (t' - CA') min_thickness |}.

Definition ug16_step (inputs : gmap string value) : M Report unit :=
  equipment_type ← lift (text inputs "equipment_type");
  service_type ← lift (text inputs "service_type");
  custom_min_enabled ← lift (flag inputs "custom_min_enabled");
  custom_min ← lift (num inputs "custom_min");
  let '(min_thickness, ref) :=
    get_ug16_min_thickness equipment_type service_type
      custom_min_enabled custom_min in
  shell ← lift (min_check inputs min_thickness "t");
  head ← lift (min_check inputs min_thickness "th_head");
  nozzle ← lift (min_check inputs min_thickness "tn");
  modify (set_ug16 {| ug16_shell := shell; ug16_head := head;
                      ug16_nozzle := nozzle; ug16_reference := ref |}).

(** [sorted(table, key=lambda x: x[2])]: a stable sort on the outer
    diameter, comparing with [<] only. *)
Fixpoint insert_by_od (x : nps_row) (l : list nps_row) : list nps_row :=
  match l with
  | [] => [x]
  | y :: l' =>
      if (row_od x <? row_od y)%float then x :: y :: l'
      else y :: insert_by_od x l'
  end.

Definition sorted_by_od (table : list nps_row) : list nps_row :=
  fold_left (fun acc x => insert_by_od x acc) table [].

(** The [for] loop over the sorted table.  Its loop variable [nps] is a
    local of the function: unbound ([None]) before the first iteration and
    bound to the current row's label from then on, also after the loop.  The
    second component is [tn_table] when the loop left through [break], and
    [None] when it ran to the end (so that the [else] clause runs). *)
Fixpoint scan_table (inputs : gmap string value) (rows : list nps_row)
    (nps : option string) : result (option string * option float) :=
  match rows with
  | [] => Ok (nps, None)
  | row :: rows' =>
      let nps := Some (row_nps row) in
      target ← num inputs "nozzle_od";
      if float_ge (row_od row) target
      then CA ← num inputs "CA"; Ok (nps, Some (row_thickness row + CA)%float)
      else scan_table inputs rows' nps
  end.

(** [results['calculations']['nozzle']['required']] *)
Definition nozzle_required (r : Report) : result float :=
  match calc_nozzle (r_calculations r) with
  | Some c => Ok (required c)
  | None => Raise (KeyError "nozzle")
  end.

Definition ug45_step (inputs : gmap string value) : M Report unit :=
  let sorted_table := sorted_by_od UG45_TABLE in
  '(nps, found) ← lift (scan_table inputs sorted_table None);
  tn_table ← lift
    match found with
    | Some tn_table => Ok tn_table
    | None =>
        match last sorted_table with
        | Some row => CA ← num inputs "CA"; Ok (row_thickness row + CA)%float
        | None => Raise (IndexError "list index out of range")
        end
    end;
  r ← get_state;
  req ← lift (nozzle_required r);
  tn ← lift (num inputs "tn");
  tn' ← lift (num inputs "tn");
  req' ← lift (nozzle_required r);
  modify (set_ug45
    {| ug45_required := py_max2 req tn_table;
       ug45_actual := tn;
       ug45_status := float_ge tn' (py_max2 req' tn_table);
       matched_size :=
         match nps with
         | Some nps => "NPS " +:+ nps
         | None => "NPS 12+"
         end |}).

(** [results.update(...)]: the keys of the analysis' own dictionary replace
    the report's. *)
Definition update_stress (own : stress_results) (r : Report) : Report :=
  let r := set_stresses (sr_stresses own) r in
  match sr_errors own with
  | Some errors => set_errors errors r
  | None => r
  end.

Definition update_load (own : load_results) (r : Report) : Report :=
  let r := set_loads (lr_loads own) r in
  match lr_errors own with
  | Some errors => set_errors errors r
  | None => r
  end.

Definition stress_step (inputs : gmap string value) : M Report unit :=
  own ← lift (perform_stress_analysis inputs);
  modify (update_stress own).

Definition load_step {libm : c_library}
    (inputs : gmap string value) : M Report unit :=
  own ← lift (perform_load_analysis inputs);
  modify (update_load own).

(** [results['ug16'][component]['status']] *)
Definition ug16_status (r : Report) (component : string)
    (field : UG16 → MinCheck) : result bool :=
  match r_ug16 r with
  | Some u => Ok (min_status (field u))
  | None => Raise (KeyError component)
  end.

(** [results['ug45']['status']] *)
Definition ug45_status_of (r : Report) : result bool :=
  match r_ug45 r with
  | Some u => Ok (ug45_status u)
  | None => Raise (KeyError "status")
  end.

(** [results['stresses'][component]] *)
Definition stress_of (r : Report) (component : string)
    (field : Stresses → option float) : result float :=
  match field (r_stresses r) with
  | Some v => Ok v
  | None => Raise (KeyError component)
  end.

(** [results.get('loads', {}).get('status', False)] *)
Definition load_status_of (r : Report) : bool :=
  match r_loads r with
  | Some l => load_status l
  | None => false
  end.

(** The list handed to [all]. *)
Definition compliance_flags (inputs : gmap string value)
    (r : Report) : result (list bool) :=
  a ← ug16_status r "shell" ug16_shell;
  b ← ug16_status r "head" ug16_head;
  c ← ug16_status r "nozzle" ug16_nozzle;
  d ← ug45_status_of r;
  ss ← stress_of r "shell" stress_shell;
  Ss ← num inputs "S_shell";
  sh ← stress_of r "head" stress_head;
  Sh ← num inputs "S_head";
  sn ← stress_of r "nozzle" stress_nozzle;
  Sn ← num inputs "S_nozzle";
  mret [a; b; c; d; (ss <=? Ss)%float; (sh <=? Sh)%float; (sn <=? Sn)%float;
        load_status_of r].

(** [all(flags)] *)
Definition all (flags : list bool) : bool := forallb id flags.

Definition final_step (inputs : gmap string value) : M Report unit :=
  r ← get_state;
  flags ← lift (compliance_flags inputs r);
  modify (set_compliant (all flags)).

(** The body of the orchestrator's [try]. *)
Definition compliance_try {libm : c_library}
    (inputs : gmap string value) : M Report unit :=
  validate inputs;;
  shell_step inputs;;
  head_step inputs;;
  nozzle_step inputs;;
  ug16_step inputs;;
  ug45_step inputs;;
  stress_step inputs;;
  load_step inputs;;
  final_step inputs.

Definition calculate_asme_compliance {libm : c_library}
    (inputs : gmap string value) : Report :=
  match compliance_try inputs initial_report with
  | (Ok _, results) => results
  | (Raise e, results) =>
      set_errors (r_errors results ++ ["Calculation error: " +:+ str_exn e])%list
        results
  end.

(** ** Complete inputs

    The record the form builds, with a value of the expected kind under each
    of the keys. *)

Record Design : Type := {
  i_P_int : float; i_D : float; i_d : float;
  i_t : float; i_tn : float; i_th_head : float;
  i_CA : float; i_nozzle_od : float;
  i_E_shell : float; i_E_head : float; i_E_nozzle : float;
  i_S_shell : float; i_S_head : float; i_S_nozzle : float;
  i_equipment_type : string; i_head_type : string;
  i_Fx : float; i_Fy : float; i_Fz : float;
  i_Mx : float; i_My : float; i_Mz : float;
  i_service_type : string;
  i_custom_min_enabled : bool; i_custom_min : float
}.

Definition to_dict (x : Design) : gmap string value :=
  list_to_map
    [ ("P_int", VFloat (i_P_int x)); ("D", VFloat (i_D x));
      ("t", VFloat (i_t x)); ("th_head", VFloat (i_th_head x));
      ("d", VFloat (i_d x)); ("tn", VFloat (i_tn x));
      ("nozzle_od", VFloat (i_nozzle_od x)); ("CA", VFloat (i_CA x));
      ("S_shell", VFloat (i_S_shell x)); ("E_shell", VFloat (i_E_shell x));
      ("S_head", VFloat (i_S_head x)); ("E_head", VFloat (i_E_head x));
      ("S_nozzle", VFloat (i_S_nozzle x)); ("E_nozzle", VFloat (i_E_nozzle x));
      ("equipment_type", VStr (i_equipment_type x));
      ("service_type", VStr (i_service_type x));
      ("custom_min_enabled", VBool (i_custom_min_enabled x));
      ("custom_min", VFloat (i_custom_min x));
      ("head_type", VStr (i_head_type x));
      ("Fx", VFloat (i_Fx x)); ("Fy", VFloat (i_Fy x)); ("Fz", VFloat (i_Fz x));
      ("Mx", VFloat (i_Mx x)); ("My", VFloat (i_My x)); ("Mz", VFloat (i_Mz x)) ].

(** The end-to-end scenario of the specification, with the fields that the
    examples below vary as parameters. *)
Definition scenario_of (P D d t th_head tn nozzle_od : float)
    (head_type : string) : Design :=
  {| i_P_int := P; i_D := D; i_d := d;
     i_t := t; i_tn := tn; i_th_head := th_head;
     i_CA := 1.5; i_nozzle_od := nozzle_od;
     i_E_shell := 1.0; i_E_head := 1.0; i_E_nozzle := 1.0;
     i_S_shell := 138.0; i_S_head := 138.0; i_S_nozzle := 118.0;
     i_equipment_type := "Pressure Vessel (Standard)";
     i_head_type := head_type;
     i_Fx := 0.0; i_Fy := 0.0; i_Fz := 0.0;
     i_Mx := 0.0; i_My := 0.0; i_Mz := 0.0;
     i_service_type := "Water";
     i_custom_min_enabled := false; i_custom_min := 2.5 |}%float.

Definition scenario : Design :=
  scenario_of 2.0 1000.0 200.0 12.0 12.0 10.0 114.3 "Ellipsoidal".

(** The scenario with a nozzle wider than every row of the table. *)
Definition oversize_nozzle : Design :=
  scenario_of 2.0 1000.0 200.0 12.0 12.0 10.0 400.0 "Ellipsoidal".

(** The scenario with a head type outside the three known ones. *)
Definition flat_head : Design :=
  scenario_of 2.0 1000.0 200.0 12.0 12.0 10.0 114.3 "Flat".

(** A small thick-walled vessel under a pressure of 300: the shell and the
    nozzle denominators [2*S*E - 1.2*P] are negative. *)
Definition high_pressure : Design :=
  scenario_of 300.0 50.0 10.0 60.0 60.0 20.0 114.3 "Ellipsoidal".

(** The scenario under a pressure of 230: the shell denominator
    [2*138*1 - 1.2*230] is exactly zero. *)
Definition critical_pressure : Design :=
  scenario_of 230.0 1000.0 200.0 12.0 12.0 10.0 114.3 "Ellipsoidal".

(** The scenario with a shell thinner than the corrosion allowance. *)
Definition thin_shell : Design :=
  scenario_of 2.0 1000.0 200.0 1.0 12.0 10.0 114.3 "Ellipsoidal".

(** The scenario with a shell exactly as thick as the corrosion
    allowance. *)
Definition worn_shell : Design :=
  scenario_of 2.0 1000.0 200.0 1.5 12.0 10.0 114.3 "Ellipsoidal".

(** The scenario with a bending moment of 1e200 about the x axis. *)
Definition heavy_moment : Design :=
  {| i_P_int := 2.0; i_D := 1000.0; i_d := 200.0;
     i_t := 12.0; i_tn := 10.0; i_th_head := 12.0;
     i_CA := 1.5; i_nozzle_od := 114.3;
     i_E_shell := 1.0; i_E_head := 1.0; i_E_nozzle := 1.0;
     i_S_shell := 138.0; i_S_head := 138.0; i_S_nozzle := 118.0;
     i_equipment_type := "Pressure Vessel (Standard)";
     i_head_type := "Ellipsoidal";
     i_Fx := 0.0; i_Fy := 0.0; i_Fz := 0.0;
     i_Mx := 1e200; i_My := 0.0; i_Mz := 0.0;
     i_service_type := "Water";
     i_custom_min_enabled := false; i_custom_min := 2.5 |}%float.

(** A nozzle of diameter and corroded thickness 1e-200: both positive,
    with a product that underflows to zero. *)
Definition tiny_nozzle : Design :=
  {| i_P_int := 2.0; i_D := 1000.0; i_d := 1e-200;
     i_t := 12.0; i_tn := 1e-200; i_th_head := 12.0;
     i_CA := 0.0; i_nozzle_od := 114.3;
     i_E_shell := 1.0; i_E_head := 1.0; i_E_nozzle := 1.0;
     i_S_shell := 138.0; i_S_head := 138.0; i_S_nozzle := 118.0;
     i_equipment_type := "Pressure Vessel (Standard)";
     i_head_type := "Ellipsoidal";
     i_Fx := 0.0; i_Fy := 0.0; i_Fz := 0.0;
     i_Mx := 0.0; i_My := 0.0; i_Mz := 0.0;
     i_service_type := "Water";
     i_custom_min_enabled := false; i_custom_min := 2.5 |}%float.

(** ** What each step computes on a complete input

    The expressions of the code with the fields of a [Design] in place of
    the dictionary look-ups; the lemmas of the first part of the properties
    show that the steps compute exactly these. *)

Definition shell_required (x : Design) : result float :=
  calculate_shell_thickness (i_P_int x) (i_D x) (i_S_shell x) (i_E_shell x).

Definition head_required (x : Design) : result float :=
  calculate_head_thickness (i_P_int x) (i_D x) (i_S_head x) (i_E_head x)
    (i_head_type x).

Definition nozzle_required_of (x : Design) : result float :=
  calculate_nozzle_thickness (i_P_int x) (i_d x) (i_S_nozzle x) (i_E_nozzle x).

Definition min_check_of (min_thickness actual : float) : MinCheck :=
  {| min_required := min_thickness;
     min_actual := actual;
     min_status := float_ge actual min_thickness |}.

Definition ug16_of (x : Design) : UG16 :=
  let mr :=
    get_ug16_min_thickness (i_equipment_type x) (i_service_type x)
      (i_custom_min_enabled x) (i_custom_min x) in
  {| ug16_shell := min_check_of mr.1 (i_t x - i_CA x);
     ug16_head := min_check_of mr.1 (i_th_head x - i_CA x);
     ug16_nozzle := min_check_of mr.1 (i_tn x - i_CA x);
     ug16_reference := mr.2 |}.

(** The first row of the sorted table whose outer diameter is at least the
    target. *)
Definition table_match (target : float) : option nps_row :=
  find (fun row => float_ge (row_od row) target) (sorted_by_od UG45_TABLE).

(** The reinforcement section stored when the scan ends on [row]. *)
Definition ug45_of (x : Design) (req : float) (row : nps_row) : UG45 :=
  let tn_table := (row_thickness row + i_CA x)%float in
  {| ug45_required := py_max2 req tn_table;
     ug45_actual := i_tn x;
     ug45_status := float_ge (i_tn x) (py_max2 req tn_table);
     matched_size := "NPS " +:+ row_nps row |}.

(** The largest entry of the table. *)
Definition largest_row : nps_row := NpsRow "12" 300 323.85 8.34.

(** The report after the thickness, minimum-thickness and reinforcement
    steps, from the three required thicknesses. *)
Definition after_thickness (x : Design) (s h n : float) : Report :=
  set_calc_nozzle {| required := n; actual := i_tn x - i_CA x |}
    (set_calc_head {| required := h; actual := i_th_head x - i_CA x |}
       (set_calc_shell {| required := s; actual := i_t x - i_CA x |}
          initial_report)).

Definition after_ug45 (x : Design) (s h n : float) : Report :=
  set_ug45
    (ug45_of x n (default largest_row (table_match (i_nozzle_od x))))
    (set_ug16 (ug16_of x) (after_thickness x s h n)).

(** The denominators of the three thickness formulas; the head has one only
    for a known head type. *)
Definition shell_denominator (x : Design) : float :=
  (2 * i_S_shell x * i_E_shell x - 1.2 * i_P_int x)%float.

Definition nozzle_denominator (x : Design) : float :=
  (2 * i_S_nozzle x * i_E_nozzle x - 1.2 * i_P_int x)%float.

Definition head_denominator (x : Design) : option float :=
  if bool_decide (i_head_type x = "Hemispherical")
  then Some (4 * i_S_head x * i_E_head x - 0.4 * i_P_int x)%float
  else if bool_decide (i_head_type x = "Ellipsoidal")
  then Some (2 * i_S_head x * i_E_head x - 0.2 * i_P_int x)%float
  else if bool_decide (i_head_type x = "Torispherical")
  then Some (i_S_head x * i_E_head x - 0.1 * i_P_int x)%float
  else None.

(** The numerator of the head formula. *)
Definition head_numerator (x : Design) : float :=
  if bool_decide (i_head_type x = "Torispherical")
  then (0.885 * i_P_int x * i_D x)%float
  else (i_P_int x * i_D x)%float.

(** The stress divisions. *)
Definition shell_stress (x : Design) : result float :=
  float_truediv (i_P_int x * (i_D x / 2)) ((i_t x - i_CA x) * i_E_shell x).

Definition head_stress (x : Design) : result float :=
  float_truediv (i_P_int x * i_D x) (4 * (i_th_head x - i_CA x) * i_E_head x).

Definition nozzle_stress (x : Design) : result float :=
  float_truediv (i_P_int x * (i_d x / 2)) ((i_tn x - i_CA x) * i_E_nozzle x).

(** [got] is [exact] or one of its two neighbours in binary64. *)
Definition within_one_ulp (exact got : float) : Prop :=
  got = exact ∨ got = next_down exact ∨ got = next_up exact.

(** The load formulas, from the squares that [x ** 2] returned. *)
Definition corroded_tn (x : Design) : float := (i_tn x - i_CA x)%float.

Definition axial_of (x : Design) : float :=
  (i_Fz x / (math_pi * i_d x * corroded_tn x))%float.

Definition bending_of (x : Design) (d2 Mx2 My2 : float) : float :=
  (4 * sqrt (Mx2 + My2) / (math_pi * d2 * corroded_tn x))%float.

Definition shear_of (x : Design) (Fx2 Fy2 : float) : float :=
  (sqrt (Fx2 + Fy2) / (math_pi * i_d x * corroded_tn x))%float.

Definition loads_of (x : Design) (d2 Mx2 My2 Fx2 Fy2 ab2 s2 : float) : Loads :=
  {| axial := axial_of x;
     bending := bending_of x d2 Mx2 My2;
     shear := shear_of x Fx2 Fy2;
     equivalent := sqrt (ab2 + 3 * s2);
     allowable := (i_S_nozzle x * 1.5)%float;
     load_status := (sqrt (ab2 + 3 * s2) <=? i_S_nozzle x * 1.5)%float |}.

(** [e] is the first exception of the three thickness steps. *)
Definition first_thickness_error (x : Design) (e : exn) : Prop :=
  shell_required x = Raise e
  ∨ (is_Ok (shell_required x) = true ∧ head_required x = Raise e)
  ∨ (is_Ok (shell_required x) = true ∧ is_Ok (head_required x) = true
     ∧ nozzle_required_of x = Raise e).

(** The report when a thickness step raises: the thicknesses stored before
    the exception and nothing else. *)
Definition thickness_partial (x : Design) : Report :=
  match shell_required x with
  | Raise _ => initial_report
  | Ok s =>
      let r1 :=
        set_calc_shell {| required := s; actual := i_t x - i_CA x |}
          initial_report in
      match head_required x with
      | Raise _ => r1
      | Ok h =>
          set_calc_head {| required := h; actual := i_th_head x - i_CA x |} r1
      end
  end.

(** The keys whose value is read: all the required ones except the
    torsional moment. *)
Definition read_keys : list string :=
  filter (fun k => k ≠ "Mz") required_keys.

(** A design without loads: the five loads that are read are zero, the
    first divisor is positive, and whatever the library returns for the
    square of the diameter is finite and leaves the second divisor
    positive. *)
Definition unloaded (x : Design) : Prop :=
  (i_Fx x =? 0)%float = true ∧ (i_Fy x =? 0)%float = true
  ∧ (i_Fz x =? 0)%float = true
  ∧ (i_Mx x =? 0)%float = true ∧ (i_My x =? 0)%float = true
  ∧ (0 <? math_pi * i_d x * corroded_tn x)%float = true
  ∧ ∀ p, within_one_ulp (i_d x * i_d x) p →
         is_infinity p = false
         ∧ (0 <? math_pi * p * corroded_tn x)%float = true.

(** ** The minimum-thickness resolver as the specification words it

    A closed type for the three equipment categories, the two look-ups and
    the override. *)

Inductive equipment : Type :=
  | PressureVesselStandard
  | UnfiredSteamBoiler
  | NonCodeConstruction.

Definition equipment_label (e : equipment) : string :=
  match e with
  | PressureVesselStandard => "Pressure Vessel (Standard)"
  | UnfiredSteamBoiler => "Unfired Steam Boiler"
  | NonCodeConstruction => "Non-Code Construction"
  end.

Definition equipment_minimum (e : equipment) : float :=
  match e with
  | PressureVesselStandard => 1.5
  | UnfiredSteamBoiler => 6.35
  | NonCodeConstruction => 0.0
  end%float.

Definition service_minimum (service : string) : float :=
  if String.eqb service "Water" || String.eqb service "Compressed Air"
     || String.eqb service "Steam"
  then 2.5%float else 0.0%float.

Definition override_value (enabled : bool) (v : float) : float :=
  if enabled then v else 0.0%float.

(** The kinds of binary64 values, as the tests of [float_pow] tell them
    apart. *)
Inductive float_kind (v : float) : Prop :=
  | kind_nan : v = nan → float_kind v
  | kind_infinity : v = infinity ∨ v = neg_infinity → float_kind v
  | kind_zero : v = 0%float ∨ v = (-0)%float → float_kind v
  | kind_positive :
      is_nan v = false → is_infinity v = false → (v =? 0)%float = false →
      (v <? 0)%float = false → (0 <? v)%float = true → float_kind v
  | kind_negative :
      is_nan v = false → is_infinity v = false → (v =? 0)%float = false →
      (v <? 0)%float = true → (0 <? - v)%float = true → float_kind v.

(** A binary64 value that is not below zero: a zero, a NaN, or a positive
    number or infinity. *)
Definition nonneg_sf (f : spec_float) : Prop :=
  match f with
  | S754_zero _ | S754_nan => True
  | S754_infinity s | S754_finite s _ _ => s = false
  end.

(** * Properties *)

(** ** Facts on binary64 arithmetic

    From the specification of the primitive operations ([FloatAxioms]). *)

Lemma Prim2SF_zero : Prim2SF 0 = S754_zero false.
Proof. reflexivity. Qed.

Lemma float_lt_neq (a b : float) :
  (a <? b)%float = true → (a =? b)%float = false.
Proof.
  rewrite FloatAxioms.ltb_spec, FloatAxioms.eqb_spec. unfold SFltb, SFeqb.
  destruct (SFcompare _ _) as [[]|]; done.
Qed.

Lemma float_pos_nonzero (a : float) :
  (0 <? a)%float = true → (a =? 0)%float = false.
Proof.
  rewrite FloatAxioms.ltb_spec, FloatAxioms.eqb_spec, Prim2SF_zero. unfold SFltb, SFeqb.
  destruct (Prim2SF a) as [s|[]| |[] m e]; done.
Qed.

Lemma float_neg_nonzero (a : float) :
  (a <? 0)%float = true → (a =? 0)%float = false.
Proof. apply float_lt_neq. Qed.

Lemma zero_div_pos (y : float) :
  (0 <? y)%float = true → (0 / y)%float = 0%float.
Proof.
  intros H. apply Prim2SF_inj. rewrite FloatAxioms.div_spec, Prim2SF_zero.
  rewrite FloatAxioms.ltb_spec, Prim2SF_zero in H. unfold SFltb in H.
  destruct (Prim2SF y) as [s|[]| |[] m e]; done.
Qed.

Lemma round_aux_nonneg mx ex lx :
  nonneg_sf (binary_round_aux prec emax false mx ex lx).
Proof.
  unfold binary_round_aux.
  destruct (shr_fexp _ _ _ _ _) as [mrs e'].
  destruct (shr_fexp _ _ _ _ _) as [mrs' e''].
  destruct (shr_m mrs'); [done| |done].
  destruct (Z.leb _ _); done.
Qed.

Lemma square_nonneg (v : float) : nonneg_sf (Prim2SF (v * v)).
Proof.
  rewrite FloatAxioms.mul_spec. unfold SF64mul.
  destruct (Prim2SF v) as [s|s| |s m e]; cbn; try done.
  - by destruct s.
  - destruct s; apply round_aux_nonneg.
Qed.

Lemma add_nonneg (a b : float) :
  nonneg_sf (Prim2SF a) → nonneg_sf (Prim2SF b) → nonneg_sf (Prim2SF (a + b)).
Proof.
  rewrite FloatAxioms.add_spec. unfold SF64add.
  destruct (Prim2SF a) as [s|s| |s m e], (Prim2SF b) as [s'|s'| |s' m' e'];
    cbn; intros Ha Hb; subst; try done.
  - by destruct s, s'.
  - unfold binary_normalize, binary_round.
    destruct (shl_align _ _ _) as [m1 e1].
    destruct (shl_align _ _ _) as [m2 e2]. cbn.
    change (Z.pos m1 + Z.pos m2)%Z with (Z.pos (m1 + m2)). cbv iota.
    destruct (shl_align _ _ _) as [mz ez]. apply round_aux_nonneg.
Qed.

Lemma mul_nonneg (a b : float) :
  nonneg_sf (Prim2SF a) → nonneg_sf (Prim2SF b) → nonneg_sf (Prim2SF (a * b)).
Proof.
  rewrite FloatAxioms.mul_spec. unfold SF64mul.
  destruct (Prim2SF a) as [s|s| |s m e], (Prim2SF b) as [s'|s'| |s' m' e'];
    cbn; intros Ha Hb; subst; try done.
  apply round_aux_nonneg.
Qed.

Lemma nonneg_not_lt_zero (v : float) :
  nonneg_sf (Prim2SF v) → (v <? 0)%float = false.
Proof.
  rewrite FloatAxioms.ltb_spec, Prim2SF_zero. unfold SFltb.
  destruct (Prim2SF v) as [s|s| |s m e]; cbn; intros H; subst; done.
Qed.

Lemma mul_zero_finite (a b : float) :
  (a =? 0)%float = true → is_finite b = true → (a * b =? 0)%float = true.
Proof.
  unfold is_finite, is_nan, is_infinity.
  rewrite !FloatAxioms.eqb_spec, FloatAxioms.mul_spec, FloatAxioms.abs_spec, Prim2SF_zero.
  change (Prim2SF infinity) with (S754_infinity false).
  unfold SF64mul.
  destruct (Prim2SF a) as [s|s| |s m e]; try done;
  destruct (Prim2SF b) as [s'|s'| |s' m' e']; try done;
  destruct s; try done; destruct s'; done.
Qed.

Lemma mul_finite_zero (a b : float) :
  is_finite a = true → (b =? 0)%float = true → (a * b =? 0)%float = true.
Proof.
  unfold is_finite, is_nan, is_infinity.
  rewrite !FloatAxioms.eqb_spec, FloatAxioms.mul_spec, FloatAxioms.abs_spec, Prim2SF_zero.
  change (Prim2SF infinity) with (S754_infinity false).
  unfold SF64mul.
  destruct (Prim2SF a) as [s|s| |s m e]; try done;
  destruct (Prim2SF b) as [s'|s'| |s' m' e']; try done;
  destruct s; try done; destruct s'; done.
Qed.

Lemma float_zero_cases (v : float) :
  (v =? 0)%float = true → v = 0%float ∨ v = (-0)%float.
Proof.
  rewrite FloatAxioms.eqb_spec, Prim2SF_zero. intros H.
  rewrite <- (SF2Prim_Prim2SF v).
  destruct (Prim2SF v) as [[]|[]| |[] m e]; try done; [right|left]; reflexivity.
Qed.

Lemma neg_zero_div_pos (y : float) :
  (0 <? y)%float = true → (-0 / y)%float = (-0)%float.
Proof.
  intros H. apply Prim2SF_inj. rewrite FloatAxioms.div_spec.
  rewrite FloatAxioms.ltb_spec, Prim2SF_zero in H. unfold SFltb in H.
  change (Prim2SF (-0)) with (S754_zero true).
  destruct (Prim2SF y) as [s|[]| |[] m e]; done.
Qed.

Lemma not_lt_zero_nonneg (v : float) :
  (v <? 0)%float = false → nonneg_sf (Prim2SF v).
Proof.
  rewrite FloatAxioms.ltb_spec, Prim2SF_zero. unfold SFltb.
  by destruct (Prim2SF v) as [s|[]| |[] m e].
Qed.

Lemma float_square_opp (v : float) : (- v * - v)%float = (v * v)%float.
Proof.
  apply Prim2SF_inj. rewrite !FloatAxioms.mul_spec, FloatAxioms.opp_spec.
  unfold SF64mul. destruct (Prim2SF v) as [[]|[]| |[] m e]; done.
Qed.

Lemma float_kind_of (v : float) : float_kind v.
Proof.
  destruct (Prim2SF v) as [s|s| |s m e] eqn:E.
  - apply kind_zero. rewrite <- (SF2Prim_Prim2SF v), E.
    destruct s; [right|left]; reflexivity.
  - apply kind_infinity. rewrite <- (SF2Prim_Prim2SF v), E.
    destruct s; [right|left]; reflexivity.
  - apply kind_nan. rewrite <- (SF2Prim_Prim2SF v), E. reflexivity.
  - assert (Hnan : is_nan v = false).
    { unfold is_nan. rewrite FloatAxioms.eqb_spec, E. unfold SFeqb, SFcompare.
      destruct s; by rewrite Z.compare_refl, Pos.compare_cont_refl. }
    assert (Hinf : is_infinity v = false).
    { unfold is_infinity. rewrite FloatAxioms.eqb_spec, FloatAxioms.abs_spec, E.
      reflexivity. }
    assert (Hz : (v =? 0)%float = false).
    { rewrite FloatAxioms.eqb_spec, E. by destruct s. }
    destruct s.
    + apply kind_negative; try done.
      * by rewrite FloatAxioms.ltb_spec, E.
      * by rewrite FloatAxioms.ltb_spec, FloatAxioms.opp_spec, E.
    + apply kind_positive; try done.
      * by rewrite FloatAxioms.ltb_spec, E.
      * by rewrite FloatAxioms.ltb_spec, E.
Qed.

Lemma float_opp_opp (v : float) : (- - v)%float = v.
Proof.
  apply Prim2SF_inj. rewrite !FloatAxioms.opp_spec.
  by destruct (Prim2SF v) as [[]|[]| |[] m e].
Qed.

Lemma is_finite_nan_infinity (v : float) :
  is_nan v = false → is_infinity v = false → is_finite v = true.
Proof. unfold is_finite. by intros -> ->. Qed.

Lemma SFeqb_opp (f : spec_float) : SFeqb (SFopp f) (SFopp f) = SFeqb f f.
Proof.
  destruct f as [[]|[]| |s m e]; try done.
  unfold SFeqb, SFopp, SFcompare.
  destruct s; cbn [negb]; rewrite Z.compare_refl, Pos.compare_cont_refl;
    reflexivity.
Qed.

Lemma is_nan_opp (v : float) : is_nan (- v) = is_nan v.
Proof.
  unfold is_nan. by rewrite !FloatAxioms.eqb_spec, FloatAxioms.opp_spec, SFeqb_opp.
Qed.

Lemma is_infinity_opp (v : float) : is_infinity (- v) = is_infinity v.
Proof.
  unfold is_infinity.
  rewrite !FloatAxioms.eqb_spec, !FloatAxioms.abs_spec, FloatAxioms.opp_spec.
  f_equal. by destruct (Prim2SF v) as [[]|[]| |[] m e].
Qed.

Lemma is_finite_opp (v : float) : is_finite (- v) = is_finite v.
Proof. unfold is_finite. by rewrite is_nan_opp, is_infinity_opp. Qed.

(** ** The order of binary64 *)

Lemma SFcompare_antisym (f g : spec_float) :
  SFcompare g f = option_map CompOpp (SFcompare f g).
Proof.
  destruct f as [[]|[]| |[] m e], g as [[]|[]| |[] m' e']; try reflexivity;
    cbn [SFcompare option_map]; f_equal;
    change (Pos.compare_cont Eq ?a ?b) with (a ?= b)%positive;
    rewrite (Z.compare_antisym e e'), (Pos.compare_antisym m m');
    destruct (e ?= e')%Z; cbn [CompOpp]; try reflexivity;
    by destruct (m ?= m')%positive.
Qed.

Lemma SFcompare_refl (f : spec_float) :
  f ≠ S754_nan → SFcompare f f = Some Eq.
Proof.
  destruct f as [[]|[]| |[] m e]; try done; intros _; cbn [SFcompare];
    by rewrite Z.compare_refl, Pos.compare_cont_refl.
Qed.

Lemma SFleb_trans (f g h : spec_float) :
  SFleb f g = true → SFleb g h = true → SFleb f h = true.
Proof.
  unfold SFleb.
  destruct f as [[]|[]| |[] m e], g as [[]|[]| |[] m' e'],
    h as [[]|[]| |[] m'' e'']; try done; cbn [SFcompare];
    destruct (Z.compare_spec e e'), (Z.compare_spec e' e''),
      (Z.compare_spec e e''); try done; try lia;
    change (Pos.compare_cont Eq ?a ?b) with (a ?= b)%positive;
    destruct (Pos.compare_spec m m'), (Pos.compare_spec m' m''),
      (Pos.compare_spec m m''); try done; lia.
Qed.

Lemma float_le_trans (a b c : float) :
  (a <=? b)%float = true → (b <=? c)%float = true → (a <=? c)%float = true.
Proof. rewrite !FloatAxioms.leb_spec. apply SFleb_trans. Qed.

Lemma float_lt_le (a b : float) :
  (a <? b)%float = true → (a <=? b)%float = true.
Proof.
  rewrite FloatAxioms.ltb_spec, FloatAxioms.leb_spec. unfold SFltb, SFleb.
  by destruct (SFcompare _ _) as [[]|].
Qed.

Lemma float_le_refl (a : float) :
  (a =? a)%float = true → (a <=? a)%float = true.
Proof.
  rewrite FloatAxioms.eqb_spec, FloatAxioms.leb_spec. unfold SFeqb, SFleb.
  by destruct (SFcompare _ _) as [[]|].
Qed.

Lemma float_not_lt_le (a b : float) :
  (a =? a)%float = true → (b =? b)%float = true →
  (a <? b)%float = false → (b <=? a)%float = true.
Proof.
  rewrite !FloatAxioms.eqb_spec, FloatAxioms.ltb_spec, FloatAxioms.leb_spec.
  unfold SFeqb, SFltb, SFleb.
  rewrite (SFcompare_antisym (Prim2SF a) (Prim2SF b)).
  destruct (SFcompare (Prim2SF a) (Prim2SF b)) as [[]|] eqn:E; try done.
  by destruct (Prim2SF a) as [[]|[]| |[] m e], (Prim2SF b) as [[]|[]| |[] m' e'].
Qed.

(** ** The power [x ** 2] *)

Section PowerFacts.
Context {libm : c_library}.

(** [x ** 2] on a number that is neither zero nor one, neither infinite nor
    NaN, is what the library returns for its absolute value. *)
Lemma float_pow2_positive (v : float) :
  is_nan v = false → is_infinity v = false → (v =? 0)%float = false →
  (v <? 0)%float = false →
  float_pow2 v
  = if (v =? 1)%float then Ok 1%float
    else match pow_2 v with
         | (ix, ENONE) =>
             if is_infinity ix
             then Raise (OverflowError "(34, 'Numerical result out of range')")
             else Ok ix
         | (ix, ERANGE) =>
             if (ix =? 0)%float then Ok ix
             else Raise (OverflowError "(34, 'Numerical result out of range')")
         | (ix, EDOM) =>
             Raise (ValueError "(33, 'Numerical argument out of domain')")
         end.
Proof.
  intros Hn Hi Hz Hl. unfold float_pow2. rewrite Hn, Hi, Hz, Hl.
  destruct (v =? 1)%float; [done|].
  destruct (pow_2 v) as [ix []]; [by destruct (is_infinity ix)| |done].
  by destruct (ix =? 0)%float.
Qed.

Lemma float_pow2_negative (v : float) :
  is_nan v = false → is_infinity v = false → (v =? 0)%float = false →
  (v <? 0)%float = true → float_pow2 v = float_pow2 (- v).
Proof.
  intros Hn Hi Hz Hl.
  assert (Hl' : (- v <? 0)%float = false).
  { revert Hl. rewrite !FloatAxioms.ltb_spec, FloatAxioms.opp_spec.
    by destruct (Prim2SF v) as [[]|[]| |[] m e]. }
  assert (Hz' : (- v =? 0)%float = false).
  { revert Hz. rewrite !FloatAxioms.eqb_spec, FloatAxioms.opp_spec.
    by destruct (Prim2SF v) as [[]|[]| |[] m e]. }
  unfold float_pow2.
  by rewrite is_nan_opp, is_infinity_opp, Hn, Hi, Hz, Hz', Hl, Hl'.
Qed.

Lemma float_pow2_opp (v : float) : float_pow2 (- v) = float_pow2 v.
Proof.
  destruct (float_kind_of v) as [->|[->| ->]|[->| ->]|Hn Hi Hz Hl Hp
                                 |Hn Hi Hz Hl Hp]; try reflexivity.
  - rewrite <- (float_opp_opp v) at 2.
    apply float_pow2_negative.
    + by rewrite is_nan_opp.
    + by rewrite is_infinity_opp.
    + revert Hz. rewrite !FloatAxioms.eqb_spec, FloatAxioms.opp_spec.
      by destruct (Prim2SF v) as [[]|[]| |[] m e].
    + revert Hp. rewrite !FloatAxioms.ltb_spec, FloatAxioms.opp_spec.
      by destruct (Prim2SF v) as [[]|[]| |[] m e].
  - symmetry. by apply float_pow2_negative.
Qed.

Lemma float_pow2_zero (v : float) :
  (v =? 0)%float = true → float_pow2 v = Ok 0%float.
Proof. intros [->| ->]%float_zero_cases; reflexivity. Qed.

Lemma float_eqb_one (v : float) : (v =? 1)%float = true → v = 1%float.
Proof.
  rewrite FloatAxioms.eqb_spec. intros H. apply Prim2SF_inj.
  change (Prim2SF 1) with (S754_finite false 4503599627370496 (-52)) in *.
  destruct (Prim2SF v) as [[]|[]| |[] m e]; try discriminate H.
  unfold SFeqb, SFcompare in H.
  destruct (e ?= -52)%Z eqn:He; try discriminate H.
  apply Z.compare_eq in He. subst e.
  destruct (PosDef.Pos.compare_cont Eq m 4503599627370496%positive) eqn:Hm;
    try discriminate H.
  apply (Pos.compare_eq m) in Hm. subst m. reflexivity.
Qed.

(** What [x ** 2] returns is within one unit in the last place of the
    correctly rounded square, and is not negative; the only exception it
    raises is the overflow, when the library's result is infinite. *)
Lemma float_pow2_cases (v : float) :
  match float_pow2 v with
  | Ok p => within_one_ulp (v * v) p ∧ (p <? 0)%float = false
  | Raise e =>
      e = OverflowError "(34, 'Numerical result out of range')"
      ∧ ∃ p, within_one_ulp (v * v) p ∧ is_infinity p = true
  end.
Proof.
  assert (Hpos : ∀ u, is_nan u = false → is_infinity u = false →
            (u =? 0)%float = false → (u <? 0)%float = false →
            (0 <? u)%float = true →
            match float_pow2 u with
            | Ok p => within_one_ulp (u * u) p ∧ (p <? 0)%float = false
            | Raise e =>
                e = OverflowError "(34, 'Numerical result out of range')"
                ∧ ∃ p, within_one_ulp (u * u) p ∧ is_infinity p = true
            end).
  { intros u Hn Hi Hz Hl Hp. rewrite float_pow2_positive by done.
    destruct (u =? 1)%float eqn:H1.
    { apply float_eqb_one in H1 as ->. split; [by left|done]. }
    pose proof (pow_2_near u Hp (is_finite_nan_infinity u Hn Hi)) as Hnear.
    pose proof (pow_2_sign u Hp (is_finite_nan_infinity u Hn Hi)) as Hsign.
    pose proof (pow_2_errno u Hp (is_finite_nan_infinity u Hn Hi)) as Herr.
    destruct (pow_2 u) as [ix err]. cbn [fst snd] in *.
    destruct Herr as [->|[-> [Hinf|Hzero]]].
    - destruct (is_infinity ix) eqn:Hinf; [|done]. split; [done|by exists ix].
    - destruct (ix =? 0)%float; [done|]. split; [done|by exists ix].
    - by rewrite Hzero. }
  destruct (float_kind_of v) as [->|[->| ->]|[->| ->]|Hn Hi Hz Hl Hp
                                 |Hn Hi Hz Hl Hp];
    try (split; [by left|done]).
  - by apply Hpos.
  - rewrite <- float_pow2_opp, <- (float_square_opp v). apply Hpos.
    + by rewrite is_nan_opp.
    + by rewrite is_infinity_opp.
    + revert Hz. rewrite !FloatAxioms.eqb_spec, FloatAxioms.opp_spec.
      by destruct (Prim2SF v) as [[]|[]| |[] m e].
    + revert Hl. rewrite !FloatAxioms.ltb_spec, FloatAxioms.opp_spec.
      by destruct (Prim2SF v) as [[]|[]| |[] m e].
    + done.
Qed.

(** When no neighbour of the correctly rounded square is infinite, [x ** 2]
    returns. *)
Lemma float_pow2_returns (v : float) :
  (∀ p, within_one_ulp (v * v) p → is_infinity p = false) →
  ∃ p, float_pow2 v = Ok p ∧ within_one_ulp (v * v) p
       ∧ (p <? 0)%float = false.
Proof.
  intros Hfin. pose proof (float_pow2_cases v) as H.
  destruct (float_pow2 v) as [p|e].
  - exists p. by destruct H.
  - destruct H as [_ (p & Hp & Hinf)]. by rewrite (Hfin p Hp) in Hinf.
Qed.

End PowerFacts.

(** ** Reading a complete input *)

Section Reading.
Variable x : Design.

Lemma num_P_int : num (to_dict x) "P_int" = Ok (i_P_int x).
Proof. reflexivity. Qed.
Lemma num_D : num (to_dict x) "D" = Ok (i_D x).
Proof. reflexivity. Qed.
Lemma num_d : num (to_dict x) "d" = Ok (i_d x).
Proof. reflexivity. Qed.
Lemma num_t : num (to_dict x) "t" = Ok (i_t x).
Proof. reflexivity. Qed.
Lemma num_tn : num (to_dict x) "tn" = Ok (i_tn x).
Proof. reflexivity. Qed.
Lemma num_th_head : num (to_dict x) "th_head" = Ok (i_th_head x).
Proof. reflexivity. Qed.
Lemma num_CA : num (to_dict x) "CA" = Ok (i_CA x).
Proof. reflexivity. Qed.
Lemma num_nozzle_od : num (to_dict x) "nozzle_od" = Ok (i_nozzle_od x).
Proof. reflexivity. Qed.
Lemma num_E_shell : num (to_dict x) "E_shell" = Ok (i_E_shell x).
Proof. reflexivity. Qed.
Lemma num_E_head : num (to_dict x) "E_head" = Ok (i_E_head x).
Proof. reflexivity. Qed.
Lemma num_E_nozzle : num (to_dict x) "E_nozzle" = Ok (i_E_nozzle x).
Proof. reflexivity. Qed.
Lemma num_S_shell : num (to_dict x) "S_shell" = Ok (i_S_shell x).
Proof. reflexivity. Qed.
Lemma num_S_head : num (to_dict x) "S_head" = Ok (i_S_head x).
Proof. reflexivity. Qed.
Lemma num_S_nozzle : num (to_dict x) "S_nozzle" = Ok (i_S_nozzle x).
Proof. reflexivity. Qed.
Lemma num_Fx : num (to_dict x) "Fx" = Ok (i_Fx x).
Proof. reflexivity. Qed.
Lemma num_Fy : num (to_dict x) "Fy" = Ok (i_Fy x).
Proof. reflexivity. Qed.
Lemma num_Fz : num (to_dict x) "Fz" = Ok (i_Fz x).
Proof. reflexivity. Qed.
Lemma num_Mx : num (to_dict x) "Mx" = Ok (i_Mx x).
Proof. reflexivity. Qed.
Lemma num_My : num (to_dict x) "My" = Ok (i_My x).
Proof. reflexivity. Qed.
Lemma num_Mz : num (to_dict x) "Mz" = Ok (i_Mz x).
Proof. reflexivity. Qed.
Lemma num_custom_min : num (to_dict x) "custom_min" = Ok (i_custom_min x).
Proof. reflexivity. Qed.
Lemma text_equipment_type : text (to_dict x) "equipment_type" = Ok (i_equipment_type x).
Proof. reflexivity. Qed.
Lemma text_head_type : text (to_dict x) "head_type" = Ok (i_head_type x).
Proof. reflexivity. Qed.
Lemma text_service_type : text (to_dict x) "service_type" = Ok (i_service_type x).
Proof. reflexivity. Qed.
Lemma flag_custom_min_enabled :
  flag (to_dict x) "custom_min_enabled" = Ok (i_custom_min_enabled x).
Proof. reflexivity. Qed.

Lemma nothing_missing : filter (not_in (to_dict x)) required_keys = [].
Proof. reflexivity. Qed.

End Reading.

Create Rewrite HintDb inputs.
#[local] Hint Rewrite
  num_P_int num_D num_d num_t num_tn num_th_head num_CA num_nozzle_od num_E_shell num_E_head num_E_nozzle
  num_S_shell num_S_head num_S_nozzle num_Fx num_Fy num_Fz num_Mx num_My num_Mz num_custom_min
  text_equipment_type text_head_type text_service_type flag_custom_min_enabled : inputs.

(** ** Running the monad *)

Lemma run_bind {S A B} (m : M S A) (f : A → M S B) (s : S) :
  (m ≫= f) s =
  match m s with
  | (Ok a, s') => f a s'
  | (Raise e, s') => (Raise e, s')
  end.
Proof. reflexivity. Qed.

Lemma run_lift_Ok {S A B} (a : A) (f : A → M S B) (s : S) :
  (lift (Ok a) ≫= f) s = f a s.
Proof. reflexivity. Qed.

Lemma run_lift_Raise {S A B} (e : exn) (f : A → M S B) (s : S) :
  (lift (Raise e) ≫= f) s = (Raise e, s).
Proof. reflexivity. Qed.

Lemma run_lift_bind {S A B} (m : result A) (f : A → M S B) (s : S) :
  (lift m ≫= f) s
  = match m with
    | Ok a => f a s
    | Raise e => (Raise e, s)
    end.
Proof. by destruct m. Qed.

Lemma run_modify {S} (f : S → S) (s : S) : modify f s = (Ok tt, f s).
Proof. reflexivity. Qed.

Ltac run_lifts :=
  repeat first
    [ rewrite run_lift_Ok
    | rewrite run_lift_bind;
      match goal with
      | |- context [match ?m with Ok _ => _ | Raise _ => _ end] =>
          destruct m; [|reflexivity]
      end ].

Lemma float_truediv_nonzero (a b : float) :
  (b =? 0)%float = false → float_truediv a b = Ok (a / b)%float.
Proof. unfold float_truediv. intros ->. reflexivity. Qed.

Lemma float_truediv_zero (a b : float) :
  (b =? 0)%float = true →
  float_truediv a b = Raise (ZeroDivisionError "float division by zero").
Proof. unfold float_truediv. intros ->. reflexivity. Qed.

(** ** The steps on a complete input *)

Section Steps.
Variable x : Design.

Lemma validate_complete r : validate (to_dict x) r = (Ok tt, r).
Proof. unfold validate. rewrite nothing_missing. reflexivity. Qed.

Lemma shell_step_complete r :
  shell_step (to_dict x) r =
  match shell_required x with
  | Ok req =>
      (Ok tt, set_calc_shell {| required := req; actual := i_t x - i_CA x |} r)
  | Raise e => (Raise e, r)
  end.
Proof.
  unfold shell_step, shell_required. autorewrite with inputs.
  rewrite !run_lift_Ok, run_bind. unfold lift.
  destruct (calculate_shell_thickness _ _ _ _); reflexivity.
Qed.

Lemma head_step_complete r :
  head_step (to_dict x) r =
  match head_required x with
  | Ok req =>
      (Ok tt,
       set_calc_head {| required := req; actual := i_th_head x - i_CA x |} r)
  | Raise e => (Raise e, r)
  end.
Proof.
  unfold head_step, head_required. autorewrite with inputs.
  rewrite !run_lift_Ok, run_bind. unfold lift.
  destruct (calculate_head_thickness _ _ _ _ _); reflexivity.
Qed.

Lemma nozzle_step_complete r :
  nozzle_step (to_dict x) r =
  match nozzle_required_of x with
  | Ok req =>
      (Ok tt, set_calc_nozzle {| required := req; actual := i_tn x - i_CA x |} r)
  | Raise e => (Raise e, r)
  end.
Proof.
  unfold nozzle_step, nozzle_required_of. autorewrite with inputs.
  rewrite !run_lift_Ok, run_bind. unfold lift.
  destruct (calculate_nozzle_thickness _ _ _ _); reflexivity.
Qed.

Lemma ug16_step_complete r :
  ug16_step (to_dict x) r = (Ok tt, set_ug16 (ug16_of x) r).
Proof.
  unfold ug16_step, ug16_of, min_check, min_check_of.
  autorewrite with inputs. rewrite !run_lift_Ok.
  destruct (get_ug16_min_thickness _ _ _ _) as [m ref].
  reflexivity.
Qed.

Lemma sorted_table_is_table : sorted_by_od UG45_TABLE = UG45_TABLE.
Proof. reflexivity. Qed.

Lemma sorted_table_last : last (sorted_by_od UG45_TABLE) = Some largest_row.
Proof. reflexivity. Qed.

(** The loop ends on the first row that passes the test, with [nps] bound to
    its label; when no row passes, [nps] is left bound to the label of the
    last row visited. *)
Lemma scan_table_complete rows nps :
  scan_table (to_dict x) rows nps =
  Ok match find (fun row => float_ge (row_od row) (i_nozzle_od x)) rows with
     | Some row =>
         (Some (row_nps row), Some (row_thickness row + i_CA x)%float)
     | None =>
         (match last rows with Some row => Some (row_nps row) | None => nps end,
          None)
     end.
Proof.
  revert nps. induction rows as [|row rows IH]; intros nps; [reflexivity|].
  cbn [scan_table find]. rewrite num_nozzle_od. cbn [mbind result_bind].
  destruct (float_ge (row_od row) (i_nozzle_od x)).
  - rewrite num_CA. reflexivity.
  - rewrite IH. destruct (find _ rows); [reflexivity|].
    destruct rows as [|row' rows']; [reflexivity|].
    change (last (row :: row' :: rows')) with (last (row' :: rows')).
    destruct (last (row' :: rows')) eqn:Hl; [reflexivity|].
    apply last_None in Hl. discriminate.
Qed.

Lemma ug45_step_complete r req :
  nozzle_required r = Ok req →
  ug45_step (to_dict x) r =
  (Ok tt,
   set_ug45
     (ug45_of x req (default largest_row (table_match (i_nozzle_od x)))) r).
Proof.
  intros Hreq. unfold ug45_step, table_match.
  rewrite scan_table_complete, sorted_table_last.
  destruct (find _ (sorted_by_od UG45_TABLE)) as [row|];
    rewrite run_lift_Ok; cbn [default]; autorewrite with inputs;
    cbn [mbind result_bind]; rewrite run_lift_Ok;
    rewrite run_bind; unfold get_state; rewrite Hreq; rewrite !run_lift_Ok;
    reflexivity.
Qed.

Lemma stress_analysis_complete :
  perform_stress_analysis (to_dict x) =
  match shell_stress x, head_stress x, nozzle_stress x with
  | Ok a, Ok b, Ok c =>
      Ok {| sr_stresses :=
              {| stress_shell := Some a; stress_head := Some b;
                 stress_nozzle := Some c |};
            sr_errors := None |}
  | _, _, _ => Raise (KeyError "errors")
  end.
Proof.
  unfold perform_stress_analysis, stress_try, shell_stress, head_stress,
    nozzle_stress.
  autorewrite with inputs. rewrite !run_lift_Ok, run_bind. unfold lift at 1.
  destruct (float_truediv _ ((i_t x - i_CA x) * i_E_shell x)) as [a|e].
  2: reflexivity.
  rewrite run_bind. unfold modify at 1. rewrite !run_lift_Ok, run_bind.
  unfold lift at 1.
  destruct (float_truediv _ (4 * (i_th_head x - i_CA x) * i_E_head x))
    as [b|e].
  2: reflexivity.
  rewrite run_bind. unfold modify at 1. rewrite !run_lift_Ok, run_bind.
  unfold lift at 1.
  destruct (float_truediv _ _) as [c|e]; reflexivity.
Qed.

End Steps.

(** ** The orchestrator on a complete input *)

Section Orchestrator.
Context {libm : c_library}.

(** The load analysis either stores a complete section or leaves through the
    handler's [KeyError]; this holds on every dictionary. *)
Lemma perform_load_analysis_cases (inputs : gmap string value) :
  match perform_load_analysis inputs with
  | Ok own => lr_errors own = None ∧ is_Some (lr_loads own)
  | Raise e => e = KeyError "errors"
  end.
Proof.
  unfold perform_load_analysis, load_try.
  repeat (rewrite run_bind; unfold lift at 1;
          match goal with
          | |- context [match ?m with Ok _ => _ | Raise _ => _ end] =>
              destruct m; [|reflexivity]
          end).
  split; [reflexivity|eexists; reflexivity].
Qed.

Lemma compliance_try_complete (x : Design) :
  compliance_try (to_dict x) initial_report =
  match shell_required x with
  | Raise e => (Raise e, initial_report)
  | Ok s =>
    let r1 :=
      set_calc_shell {| required := s; actual := i_t x - i_CA x |}
        initial_report in
    match head_required x with
    | Raise e => (Raise e, r1)
    | Ok h =>
      let r2 :=
        set_calc_head {| required := h; actual := i_th_head x - i_CA x |} r1 in
      match nozzle_required_of x with
      | Raise e => (Raise e, r2)
      | Ok n =>
        match perform_stress_analysis (to_dict x) with
        | Raise e => (Raise e, after_ug45 x s h n)
        | Ok own =>
          match perform_load_analysis (to_dict x) with
          | Raise e => (Raise e, update_stress own (after_ug45 x s h n))
          | Ok own' =>
              final_step (to_dict x)
                (update_load own' (update_stress own (after_ug45 x s h n)))
          end
        end
      end
    end
  end.
Proof.
  unfold compliance_try.
  rewrite run_bind, validate_complete, run_bind, shell_step_complete.
  destruct (shell_required x) as [s|e]; [|reflexivity].
  rewrite run_bind, head_step_complete.
  destruct (head_required x) as [h|e]; [|reflexivity].
  rewrite run_bind, nozzle_step_complete.
  destruct (nozzle_required_of x) as [n|e]; [|reflexivity].
  rewrite run_bind, ug16_step_complete.
  rewrite run_bind, (ug45_step_complete x _ n) by reflexivity.
  rewrite run_bind. unfold stress_step at 1. rewrite run_bind. unfold lift at 1.
  destruct (perform_stress_analysis (to_dict x)) as [own|e]; [|reflexivity].
  unfold modify at 1.
  rewrite run_bind. unfold load_step at 1. rewrite run_bind. unfold lift at 1.
  destruct (perform_load_analysis (to_dict x)) as [own'|e]; [|reflexivity].
  reflexivity.
Qed.

End Orchestrator.

(** ** The load analyzer *)

Lemma math_sqrt_nonneg (v : float) :
  nonneg_sf (Prim2SF v) → math_sqrt v = Ok (sqrt v).
Proof.
  intros H. unfold math_sqrt. rewrite (nonneg_not_lt_zero v H). reflexivity.
Qed.

(** The square root of a sum of two numbers that are not negative is
    always defined. *)
Lemma math_sqrt_sum (a b : float) :
  (a <? 0)%float = false → (b <? 0)%float = false →
  math_sqrt (a + b) = Ok (sqrt (a + b)).
Proof.
  intros Ha Hb. by apply math_sqrt_nonneg, add_nonneg; apply not_lt_zero_nonneg.
Qed.

Lemma math_sqrt_equivalent (a b : float) :
  (a <? 0)%float = false → (b <? 0)%float = false →
  math_sqrt (a + 3 * b) = Ok (sqrt (a + 3 * b)).
Proof.
  intros Ha Hb. apply math_sqrt_nonneg, add_nonneg;
    [by apply not_lt_zero_nonneg|].
  apply mul_nonneg; [reflexivity|by apply not_lt_zero_nonneg].
Qed.

Lemma num_insert_ne (inputs : gmap string value) (k key : string) (v : value) :
  k ≠ key → num (<[k := v]> inputs) key = num inputs key.
Proof. intros H. unfold num, getitem. by rewrite lookup_insert_ne. Qed.

Section LoadAnalyzer.
Context {libm : c_library}.

Lemma float_pow2_Ok (v p : float) :
  float_pow2 v = Ok p → within_one_ulp (v * v) p ∧ (p <? 0)%float = false.
Proof. intros H. pose proof (float_pow2_cases v) as Hc. by rewrite H in Hc. Qed.

(** The analysis when no division is by zero and no square overflows. *)
Lemma load_analysis_in_range (x : Design)
    (d2 Mx2 My2 Fx2 Fy2 ab2 s2 : float) :
  (math_pi * i_d x * corroded_tn x =? 0)%float = false →
  float_pow2 (i_d x) = Ok d2 →
  (math_pi * d2 * corroded_tn x =? 0)%float = false →
  float_pow2 (i_Mx x) = Ok Mx2 → float_pow2 (i_My x) = Ok My2 →
  float_pow2 (i_Fx x) = Ok Fx2 → float_pow2 (i_Fy x) = Ok Fy2 →
  float_pow2 (axial_of x + bending_of x d2 Mx2 My2) = Ok ab2 →
  float_pow2 (shear_of x Fx2 Fy2) = Ok s2 →
  perform_load_analysis (to_dict x)
  = Ok {| lr_loads := Some (loads_of x d2 Mx2 My2 Fx2 Fy2 ab2 s2);
          lr_errors := None |}.
Proof.
  intros Hden Hd Hden2 HMx HMy HFx HFy Hab Hs.
  destruct (float_pow2_Ok _ _ HMx) as [_ HMx'].
  destruct (float_pow2_Ok _ _ HMy) as [_ HMy'].
  destruct (float_pow2_Ok _ _ HFx) as [_ HFx'].
  destruct (float_pow2_Ok _ _ HFy) as [_ HFy'].
  destruct (float_pow2_Ok _ _ Hab) as [_ Hab'].
  destruct (float_pow2_Ok _ _ Hs) as [_ Hs'].
  unfold perform_load_analysis, load_try. autorewrite with inputs.
  fold (corroded_tn x).
  rewrite !run_lift_Ok.
  rewrite (float_truediv_nonzero _ _ Hden), !run_lift_Ok.
  rewrite HMx, !run_lift_Ok, HMy, !run_lift_Ok.
  rewrite (math_sqrt_sum _ _ HMx' HMy'), !run_lift_Ok.
  rewrite Hd, !run_lift_Ok.
  rewrite (float_truediv_nonzero _ _ Hden2), !run_lift_Ok.
  rewrite HFx, !run_lift_Ok, HFy, !run_lift_Ok.
  rewrite (math_sqrt_sum _ _ HFx' HFy'), !run_lift_Ok.
  rewrite (float_truediv_nonzero _ _ Hden), !run_lift_Ok.
  fold (axial_of x) (bending_of x d2 Mx2 My2) (shear_of x Fx2 Fy2).
  rewrite Hab, !run_lift_Ok, Hs, !run_lift_Ok.
  rewrite (math_sqrt_equivalent _ _ Hab' Hs'), !run_lift_Ok.
  reflexivity.
Qed.

(** With no load applied the bending, the shear and the equivalent stress
    are zero, whatever the sign of the zeros and whatever the library
    returned for the square of the diameter. *)
Lemma zero_loads_analysis (x : Design) (d2 : float) :
  (0 <? math_pi * i_d x * corroded_tn x)%float = true →
  float_pow2 (i_d x) = Ok d2 →
  (0 <? math_pi * d2 * corroded_tn x)%float = true →
  (i_Fx x =? 0)%float = true → (i_Fy x =? 0)%float = true →
  (i_Fz x =? 0)%float = true →
  (i_Mx x =? 0)%float = true → (i_My x =? 0)%float = true →
  perform_load_analysis (to_dict x)
  = Ok {| lr_loads :=
            Some {| axial := axial_of x; bending := 0; shear := 0;
                    equivalent := 0;
                    allowable := (i_S_nozzle x * 1.5)%float;
                    load_status := (0 <=? i_S_nozzle x * 1.5)%float |};
          lr_errors := None |}.
Proof.
  intros Hden Hd Hden2 HFx HFy HFz HMx HMy.
  assert (Hb : bending_of x d2 0 0 = 0%float).
  { unfold bending_of.
    change (4 * sqrt (0 + 0))%float with 0%float. by apply zero_div_pos. }
  assert (Hs : shear_of x 0 0 = 0%float).
  { unfold shear_of.
    change (sqrt (0 + 0))%float with 0%float. by apply zero_div_pos. }
  assert (Ha : axial_of x = 0%float ∨ axial_of x = (-0)%float).
  { unfold axial_of. destruct (float_zero_cases _ HFz) as [-> | ->];
      [left; by apply zero_div_pos | right; by apply neg_zero_div_pos]. }
  rewrite (load_analysis_in_range x d2 0 0 0 0 0 0);
    try done; try by apply float_pow2_zero.
  - unfold loads_of. by rewrite Hb, Hs.
  - by apply float_pos_nonzero.
  - by apply float_pos_nonzero.
  - rewrite Hb. by destruct Ha as [-> | ->].
  - by rewrite Hs.
Qed.

(** The load analysis never reads the torsional moment. *)
Lemma load_analysis_ignores_Mz (inputs : gmap string value) (v : value) :
  perform_load_analysis (<["Mz" := v]> inputs) = perform_load_analysis inputs.
Proof.
  unfold perform_load_analysis, load_try.
  by rewrite !num_insert_ne by done.
Qed.

(** C10, as the code has it.  The load analyzer on a complete input whose
    two divisors [pi * d * (tn - CA)] and [pi * d**2 * (tn - CA)], with
    [pi] the binary64 value of [math.pi], are positive and on which no
    square overflows ([x ** 2] raises
    [OverflowError] otherwise): every square is within one unit in the last
    place of the correctly rounded product; the axial, bending, shear and
    equivalent stresses are the four formulas over these squares, the
    allowable limit is 1.5 times the nozzle allowable stress and the status
    is [equivalent <= allowable].  The torsional moment takes no part: the
    analysis is the same under any value of ['Mz'].  With the five loads
    that are read equal to zero the bending, shear and equivalent stresses
    are zero and the status is [0 <= allowable]: true as soon as the
    allowable limit is not negative. *)
Theorem load_analyzer_formulas (x : Design) (d2 : float) :
  let pi := 3.141592653589793%float in
  let tc := (i_tn x - i_CA x)%float in
  (0 <? pi * i_d x * tc)%float = true →
  float_pow2 (i_d x) = Ok d2 →
  (0 <? pi * d2 * tc)%float = true →
  within_one_ulp (i_d x * i_d x) d2
  ∧ (∀ Mx2 My2 Fx2 Fy2 ab2 s2 : float,
       let ax := (i_Fz x / (pi * i_d x * tc))%float in
       let be := (4 * sqrt (Mx2 + My2) / (pi * d2 * tc))%float in
       let sh := (sqrt (Fx2 + Fy2) / (pi * i_d x * tc))%float in
       float_pow2 (i_Mx x) = Ok Mx2 → float_pow2 (i_My x) = Ok My2 →
       float_pow2 (i_Fx x) = Ok Fx2 → float_pow2 (i_Fy x) = Ok Fy2 →
       float_pow2 (ax + be) = Ok ab2 → float_pow2 sh = Ok s2 →
       (within_one_ulp (i_Mx x * i_Mx x) Mx2
        ∧ within_one_ulp (i_My x * i_My x) My2
        ∧ within_one_ulp (i_Fx x * i_Fx x) Fx2
        ∧ within_one_ulp (i_Fy x * i_Fy x) Fy2
        ∧ within_one_ulp ((ax + be) * (ax + be)) ab2
        ∧ within_one_ulp (sh * sh) s2)
       ∧ perform_load_analysis (to_dict x)
         = Ok {| lr_loads :=
                   Some {| axial := ax; bending := be; shear := sh;
                           equivalent := sqrt (ab2 + 3 * s2);
                           allowable := (i_S_nozzle x * 1.5)%float;
                           load_status :=
                             (sqrt (ab2 + 3 * s2)
                              <=? i_S_nozzle x * 1.5)%float |};
                 lr_errors := None |})
  ∧ (∀ v, perform_load_analysis (<["Mz" := v]> (to_dict x))
          = perform_load_analysis (to_dict x))
  ∧ ((i_Fx x =? 0)%float = true → (i_Fy x =? 0)%float = true →
     (i_Fz x =? 0)%float = true →
     (i_Mx x =? 0)%float = true → (i_My x =? 0)%float = true →
     perform_load_analysis (to_dict x)
     = Ok {| lr_loads :=
               Some {| axial := (i_Fz x / (pi * i_d x * tc))%float;
                       bending := 0; shear := 0; equivalent := 0;
                       allowable := (i_S_nozzle x * 1.5)%float;
                       load_status := (0 <=? i_S_nozzle x * 1.5)%float |};
             lr_errors := None |}).
Proof.
  intros pi tc Hden Hd Hden2. split_and!.
  - by destruct (float_pow2_Ok _ _ Hd).
  - intros Mx2 My2 Fx2 Fy2 ab2 s2 ax be sh HMx HMy HFx HFy Hab Hs. split.
    + split_and!; by (eapply float_pow2_Ok).
    + apply (load_analysis_in_range x d2 Mx2 My2 Fx2 Fy2 ab2 s2); try done;
        by apply float_pos_nonzero.
  - intros v. apply load_analysis_ignores_Mz.
  - intros HFx HFy HFz HMx HMy. by apply (zero_loads_analysis x d2).
Qed.

(** On every library whose [pow] overflows on 1e200, the analysis of the
    scenario with that bending moment leaves through the exception of its
    handler. *)
Lemma heavy_moment_any_library :
  is_infinity (pow_2 1e200).1 = true →
  perform_load_analysis (to_dict heavy_moment) = Raise (KeyError "errors").
Proof.
  intros Hinf.
  assert (He : ∃ e, float_pow2 1e200 = Raise e).
  { rewrite float_pow2_positive by reflexivity.
    change (1e200 =? 1)%float with false. cbv iota.
    destruct (pow_2 1e200) as [ix []]; cbn [fst] in Hinf.
    - rewrite Hinf. by eexists.
    - assert ((ix =? 0)%float = false) as ->; [|by eexists].
      revert Hinf. unfold is_infinity.
      rewrite !FloatAxioms.eqb_spec, FloatAxioms.abs_spec.
      by destruct (Prim2SF ix) as [[]|[]| |[] m e].
    - by eexists. }
  destruct He as [e He].
  unfold perform_load_analysis, load_try. autorewrite with inputs.
  rewrite !run_lift_Ok.
  rewrite float_truediv_nonzero by reflexivity. rewrite !run_lift_Ok.
  change (i_Mx heavy_moment) with 1e200%float.
  by rewrite He.
Qed.

End LoadAnalyzer.

Lemma load_analyzer_formulas_witness :
  perform_load_analysis (to_dict scenario)
  = Ok {| lr_loads :=
            Some {| axial := 0; bending := 0; shear := 0; equivalent := 0;
                    allowable := 177; load_status := true |};
          lr_errors := None |}
  ∧ perform_load_analysis (<["Mz" := VFloat 5000]> (to_dict scenario))
    = perform_load_analysis (to_dict scenario).
Proof.
  destruct (load_analyzer_formulas scenario 40000) as (_ & H & HMz & H0);
    [reflexivity..|].
  split; [|apply HMz].
  destruct (H 0 0 0 0 0 0)%float as [_ Hl]; [reflexivity..|].
  rewrite Hl. reflexivity.
Defined.

(** C10 does not hold on the scenario with a bending moment of 1e200: the
    diameter and the corroded thickness are positive, the square of the
    moment overflows, and the analysis returns no load section: it leaves
    through the exception of its handler.  Nor does it hold on a nozzle of
    diameter and corroded thickness 1e-200, both positive: their product
    underflows, and the first division is by zero. *)
Lemma heavy_moment_overflows :
  ((0 <? i_d heavy_moment)%float = true
   ∧ (0 <? i_tn heavy_moment - i_CA heavy_moment)%float = true
   ∧ float_pow2 (i_Mx heavy_moment)
     = Raise (OverflowError "(34, 'Numerical result out of range')")
   ∧ perform_load_analysis (to_dict heavy_moment) = Raise (KeyError "errors")
   ∧ r_loads (calculate_asme_compliance (to_dict heavy_moment)) = None)
  ∧ ((0 <? i_d tiny_nozzle)%float = true
     ∧ (0 <? i_tn tiny_nozzle - i_CA tiny_nozzle)%float = true
     ∧ (math_pi * i_d tiny_nozzle * (i_tn tiny_nozzle - i_CA tiny_nozzle)
        =? 0)%float = true
     ∧ perform_load_analysis (to_dict tiny_nozzle) = Raise (KeyError "errors")).
Proof. by vm_compute. Qed.

(** ** The minimum-thickness resolver *)

Lemma service_test (service : string) :
  bool_decide (service ∈ ["Water"; "Compressed Air"; "Steam"])
  = (String.eqb service "Water" || String.eqb service "Compressed Air"
     || String.eqb service "Steam").
Proof.
  destruct (String.eqb_spec service "Water") as [->|H1]; [reflexivity|].
  destruct (String.eqb_spec service "Compressed Air") as [->|H2];
    [reflexivity|].
  destruct (String.eqb_spec service "Steam") as [->|H3]; [reflexivity|].
  apply bool_decide_eq_false.
  rewrite !elem_of_cons, elem_of_nil. tauto.
Qed.

(** Python's [max] of two floats is one of them, and is at least each of
    them that is a number. *)
Lemma py_max2_either (a b : float) : py_max2 a b = a ∨ py_max2 a b = b.
Proof. unfold py_max2. destruct (float_gt b a); [by right|by left]. Qed.

Lemma py_max2_number (a b : float) :
  (a =? a)%float = true → (b =? b)%float = true →
  (py_max2 a b =? py_max2 a b)%float = true.
Proof. intros Ha Hb. by destruct (py_max2_either a b) as [-> | ->]. Qed.

Lemma py_max2_left (a b : float) :
  (a =? a)%float = true → (a <=? py_max2 a b)%float = true.
Proof.
  intros Ha. unfold py_max2, float_gt.
  destruct (a <? b)%float eqn:Hab; [by apply float_lt_le|by apply float_le_refl].
Qed.

Lemma py_max2_right (a b : float) :
  (a =? a)%float = true → (b =? b)%float = true →
  (b <=? py_max2 a b)%float = true.
Proof.
  intros Ha Hb. unfold py_max2, float_gt.
  destruct (a <? b)%float eqn:Hab;
    [by apply float_le_refl|by apply float_not_lt_le].
Qed.

Lemma equipment_minimum_number (e : equipment) :
  (equipment_minimum e =? equipment_minimum e)%float = true.
Proof. by destruct e. Qed.

Lemma service_minimum_number (service : string) :
  (service_minimum service =? service_minimum service)%float = true.
Proof. unfold service_minimum. by destruct (_ || _). Qed.

(** The resolved minimum is Python's [max] of the three values. *)
Lemma ug16_minimum_value (e : equipment) (service : string)
    (enabled : bool) (v : float) :
  (get_ug16_min_thickness (equipment_label e) service enabled v).1
  = py_max3 (equipment_minimum e) (service_minimum service)
      (override_value enabled v).
Proof.
  unfold get_ug16_min_thickness, service_minimum, override_value.
  rewrite service_test. cbn [fst]. by destruct e.
Qed.

(** The justification is made of the clauses whose value is strictly
    positive. *)
Lemma ug16_justification (e : equipment) (service : string)
    (enabled : bool) (v : float) :
  (get_ug16_min_thickness (equipment_label e) service enabled v).2
  = match (if (0 <? equipment_minimum e)%float
           then ["UG-16 for " +:+ equipment_label e] else [])
          ++ (if (0 <? service_minimum service)%float
              then ["UG-16(b) for " +:+ service] else [])
          ++ (if (0 <? override_value enabled v)%float
              then ["Custom specified minimum"] else [])
    with
    | [] => "No UG-16 requirement"
    | [a] => a
    | [a; b] => a +:+ " + " +:+ b
    | a :: b :: c :: _ => a +:+ " + " +:+ b +:+ " + " +:+ c
    end%list.
Proof.
  unfold get_ug16_min_thickness, service_minimum, override_value.
  rewrite service_test.
  destruct (String.eqb service "Water" || String.eqb service "Compressed Air"
            || String.eqb service "Steam");
    destruct e, enabled; vm_compute;
    try reflexivity; destruct (0 <? v)%float; reflexivity.
Qed.

(** C8.  For every equipment category, service, override flag and override
    value the resolved minimum is the maximum of the equipment minimum
    (1.5, 6.35, 0.0), the service minimum (2.5 for water, compressed air
    and steam, 0.0 otherwise) and the override (0.0 unless the flag is
    set): it is the value that Python's [max] keeps, one of the three, at
    least the equipment and the service minimum, and at least the override
    whenever that is a number.  The justification is made of the clauses
    whose value is strictly positive, in the order equipment, service,
    override, with " + " between two of them, or is the sentinel when there
    is none. *)
Theorem ug16_resolver (e : equipment) (service : string)
    (enabled : bool) (v : float) :
  let em := equipment_minimum e in
  let sm := service_minimum service in
  let ov := override_value enabled v in
  let resolved := get_ug16_min_thickness (equipment_label e) service enabled v in
  resolved.1
  = (let m := if (em <? sm)%float then sm else em in
     if (m <? ov)%float then ov else m)
  ∧ (resolved.1 = em ∨ resolved.1 = sm ∨ resolved.1 = ov)
  ∧ (em <=? resolved.1)%float = true
  ∧ (sm <=? resolved.1)%float = true
  ∧ ((ov =? ov)%float = true → (ov <=? resolved.1)%float = true)
  ∧ resolved.2
    = match (if (0 <? em)%float then ["UG-16 for " +:+ equipment_label e]
             else [])
            ++ (if (0 <? sm)%float then ["UG-16(b) for " +:+ service] else [])
            ++ (if (0 <? ov)%float then ["Custom specified minimum"] else [])
      with
      | [] => "No UG-16 requirement"
      | [a] => a
      | [a; b] => a +:+ " + " +:+ b
      | a :: b :: c :: _ => a +:+ " + " +:+ b +:+ " + " +:+ c
      end%list.
Proof.
  intros em sm ov resolved. unfold resolved.
  rewrite ug16_minimum_value, ug16_justification. fold em sm ov.
  pose proof (equipment_minimum_number e) as He. fold em in He.
  pose proof (service_minimum_number service) as Hs. fold sm in Hs.
  pose proof (py_max2_number em sm He Hs) as Hm.
  split_and!.
  - reflexivity.
  - unfold py_max3.
    destruct (py_max2_either (py_max2 em sm) ov) as [-> | ->]; [|tauto].
    destruct (py_max2_either em sm) as [-> | ->]; tauto.
  - apply (float_le_trans em (py_max2 em sm)); [by apply py_max2_left|].
    by apply py_max2_left.
  - apply (float_le_trans sm (py_max2 em sm)); [by apply py_max2_right|].
    by apply py_max2_left.
  - intros Hov. by apply py_max2_right.
  - reflexivity.
Qed.

(** An equipment label outside the table counts for 0.0 and adds no
    clause. *)
Lemma ug16_unknown_equipment (label : string) :
  (∀ e, label ≠ equipment_label e) →
  UG16_MINIMUMS !! label = None.
Proof.
  intros H. unfold UG16_MINIMUMS. cbn [list_to_map foldr uncurry].
  rewrite !lookup_insert_ne; [apply lookup_empty|..].
  - exact (fun E => H NonCodeConstruction (eq_sym E)).
  - exact (fun E => H UnfiredSteamBoiler (eq_sym E)).
  - exact (fun E => H PressureVesselStandard (eq_sym E)).
Qed.

(** The two resolver examples of the specification. *)
Example ug16_steam_boiler_water :
  get_ug16_min_thickness "Unfired Steam Boiler" "Water" false 2.5
  = (6.35%float, "UG-16 for Unfired Steam Boiler + UG-16(b) for Water").
Proof. reflexivity. Qed.

Example ug16_no_requirement :
  get_ug16_min_thickness "Non-Code Construction" "Other" false 2.5
  = (0%float, "No UG-16 requirement").
Proof. reflexivity. Qed.

(** ** The formula library *)

(** C9.  For all P, D, S and E the head thickness is
    [P*D / (4*S*E - 0.4*P)] for a hemispherical head,
    [P*D / (2*S*E - 0.2*P)] for an ellipsoidal head and
    [0.885*P*D / (S*E - 0.1*P)] for a torispherical head, the quotient
    being the value returned wherever it is defined (Python's division
    raises on a zero divisor); every other head type raises
    [ValueError("Invalid head type")]. *)
Theorem head_thickness_formulas (P D S E : float) :
  ((4 * S * E - 0.4 * P =? 0)%float = false →
   calculate_head_thickness P D S E "Hemispherical"
   = Ok (P * D / (4 * S * E - 0.4 * P))%float)
  ∧ ((2 * S * E - 0.2 * P =? 0)%float = false →
     calculate_head_thickness P D S E "Ellipsoidal"
     = Ok (P * D / (2 * S * E - 0.2 * P))%float)
  ∧ ((S * E - 0.1 * P =? 0)%float = false →
     calculate_head_thickness P D S E "Torispherical"
     = Ok (0.885 * P * D / (S * E - 0.1 * P))%float)
  ∧ (∀ head_type,
       head_type ∉ ["Hemispherical"; "Ellipsoidal"; "Torispherical"] →
       calculate_head_thickness P D S E head_type
       = Raise (ValueError "Invalid head type")).
Proof.
  repeat split.
  - intros H. unfold calculate_head_thickness. cbn [bool_decide].
    by apply float_truediv_nonzero.
  - intros H. by apply float_truediv_nonzero.
  - intros H. by apply float_truediv_nonzero.
  - intros ty Hty. rewrite !not_elem_of_cons in Hty.
    destruct Hty as (H1 & H2 & H3 & _). unfold calculate_head_thickness.
    by rewrite !bool_decide_eq_false_2.
Qed.

Lemma head_thickness_formulas_witness :
  calculate_head_thickness 2 1000 138 1 "Hemispherical"
  = Ok (2 * 1000 / (4 * 138 * 1 - 0.4 * 2))%float
  ∧ calculate_head_thickness 2 1000 138 1 "Ellipsoidal"
    = Ok (2 * 1000 / (2 * 138 * 1 - 0.2 * 2))%float
  ∧ calculate_head_thickness 2 1000 138 1 "Torispherical"
    = Ok (0.885 * 2 * 1000 / (138 * 1 - 0.1 * 2))%float
  ∧ calculate_head_thickness 2 1000 138 1 "Flat"
    = Raise (ValueError "Invalid head type").
Proof.
  destruct (head_thickness_formulas 2 1000 138 1) as (H1 & H2 & H3 & H4).
  split; [by apply H1|]. split; [by apply H2|]. split; [by apply H3|].
  apply H4. rewrite !not_elem_of_cons. repeat split; try done.
  apply not_elem_of_nil.
Defined.

(** Where the divisor is zero the three formulas raise instead. *)
Lemma head_thickness_zero_divisor (P D S E : float) :
  ((4 * S * E - 0.4 * P =? 0)%float = true →
   calculate_head_thickness P D S E "Hemispherical"
   = Raise (ZeroDivisionError "float division by zero"))
  ∧ ((2 * S * E - 0.2 * P =? 0)%float = true →
     calculate_head_thickness P D S E "Ellipsoidal"
     = Raise (ZeroDivisionError "float division by zero"))
  ∧ ((S * E - 0.1 * P =? 0)%float = true →
     calculate_head_thickness P D S E "Torispherical"
     = Raise (ZeroDivisionError "float division by zero")).
Proof. repeat split; intros H; by apply float_truediv_zero. Qed.

(** The shell and the nozzle thickness are one formula. *)
Lemma shell_nozzle_same_formula (P D S E : float) :
  calculate_shell_thickness P D S E = calculate_nozzle_thickness P D S E.
Proof. reflexivity. Qed.

(** The three head formulas on P = 2, D = 1000, S = 138, E = 1. *)
Example head_thickness_values :
  calculate_head_thickness 2 1000 138 1 "Hemispherical"
  = Ok 3.6284470246734393%float
  ∧ calculate_head_thickness 2 1000 138 1 "Ellipsoidal"
    = Ok 7.2568940493468785%float
  ∧ calculate_head_thickness 2 1000 138 1 "Torispherical"
    = Ok 12.844702467343975%float.
Proof. repeat split. Qed.

(** ** Missing inputs *)

Lemma required_keys_count : length required_keys = 25.
Proof. reflexivity. Qed.

Lemma required_keys_NoDup : NoDup required_keys.
Proof. apply (bool_decide_unpack _). by vm_compute. Qed.

Lemma filter_none {A} (P : A → Prop) `{∀ a, Decision (P a)} (l : list A) :
  (∀ b, b ∈ l → ¬ P b) → filter P l = [].
Proof.
  induction l as [|b l IH]; intros Hl; [done|].
  rewrite filter_cons_False by (apply Hl; by left).
  apply IH. intros c Hc. apply Hl. by right.
Qed.

Lemma filter_single {A} (P : A → Prop) `{∀ a, Decision (P a)}
    (l : list A) (a : A) :
  NoDup l → a ∈ l → P a → (∀ b, b ∈ l → b ≠ a → ¬ P b) →
  filter P l = [a].
Proof.
  induction l as [|b l IH]; intros Hnd Hin Ha Hothers.
  - by apply elem_of_nil in Hin.
  - apply NoDup_cons in Hnd as [Hb Hnd].
    apply elem_of_cons in Hin as [->|Hin].
    + rewrite filter_cons_True by done. f_equal.
      apply filter_none.
      intros c Hc. apply Hothers; [by right|]. by intros ->.
    + rewrite filter_cons_False.
      * apply IH; try done. intros c Hc. apply Hothers. by right.
      * apply Hothers; [by left|]. by intros ->.
Qed.

Lemma validate_missing (inputs : gmap string value) (r : Report) :
  filter (not_in inputs) required_keys ≠ [] →
  validate inputs r
  = (Raise (ValueError
       ("Missing inputs: "
        +:+ join ", " (filter (not_in inputs) required_keys))), r).
Proof.
  intros H. unfold validate.
  by destruct (filter (not_in inputs) required_keys).
Qed.

Lemma complete_has_key (x : Design) (k : string) :
  k ∈ required_keys → is_Some (to_dict x !! k).
Proof.
  intros Hk. destruct (to_dict x !! k) eqn:E; [by eexists|].
  exfalso. revert Hk.
  apply (filter_nil_not_elem_of (not_in (to_dict x))).
  - apply nothing_missing.
  - unfold not_in. rewrite E. by intros [? ?].
Qed.

Section MissingInputs.
Context {libm : c_library}.

Lemma missing_input_report (inputs : gmap string value) :
  filter (not_in inputs) required_keys ≠ [] →
  calculate_asme_compliance inputs
  = set_errors
      ["Calculation error: Missing inputs: "
       +:+ join ", " (filter (not_in inputs) required_keys)]
      initial_report.
Proof.
  intros H. unfold calculate_asme_compliance, compliance_try.
  rewrite run_bind, validate_missing by done. reflexivity.
Qed.

Lemma absent_key_is_missing (inputs : gmap string value) (key : string) :
  key ∈ required_keys → inputs !! key = None →
  key ∈ filter (not_in inputs) required_keys.
Proof.
  intros Hkey Hnone. apply list_elem_of_filter. split; [|done].
  unfold not_in. rewrite Hnone. by intros [? ?].
Qed.

Lemma only_key_missing (inputs : gmap string value) (key : string) :
  key ∈ required_keys → inputs !! key = None →
  (∀ k, k ∈ required_keys → k ≠ key → is_Some (inputs !! k)) →
  filter (not_in inputs) required_keys = [key].
Proof.
  intros Hkey Hnone Hothers. apply filter_single; try done.
  - apply required_keys_NoDup.
  - unfold not_in. rewrite Hnone. by intros [? ?].
  - intros k Hk Hkk Hno. apply Hno. by apply Hothers.
Qed.

(** C2.  When a required key is absent from the input dictionary the
    orchestrator ends with exactly one error, whose message lists the
    missing keys joined by ", " (the absent key among them, and it alone
    when it is the only one absent), and nothing is computed: no thickness,
    minimum-thickness, reinforcement, stress or load section and no overall
    boolean. *)
Theorem missing_input_aborts (inputs : gmap string value) (key : string) :
  key ∈ required_keys → inputs !! key = None →
  let r := calculate_asme_compliance inputs in
  let missing := filter (not_in inputs) required_keys in
  r_errors r = ["Calculation error: Missing inputs: " +:+ join ", " missing]
  ∧ key ∈ missing
  ∧ ((∀ k, k ∈ required_keys → k ≠ key → is_Some (inputs !! k)) →
     r_errors r = ["Calculation error: Missing inputs: " +:+ key])
  ∧ r_calculations r = no_calculations
  ∧ r_ug16 r = None ∧ r_ug45 r = None
  ∧ r_stresses r = no_stresses ∧ r_loads r = None
  ∧ r_compliant r = None.
Proof.
  intros Hkey Hnone r missing.
  pose proof (absent_key_is_missing inputs key Hkey Hnone) as Hin.
  fold missing in Hin.
  assert (Hr : r = set_errors
            ["Calculation error: Missing inputs: " +:+ join ", " missing]
            initial_report).
  { apply missing_input_report. fold missing. intros E. rewrite E in Hin.
    by apply elem_of_nil in Hin. }
  rewrite Hr. split_and!; try done.
  intros Hothers. cbn [r_errors set_errors]. do 2 f_equal.
  unfold missing. by rewrite (only_key_missing inputs key).
Qed.

(** Removing any one required key from a complete input: the message names
    exactly that key. *)
Lemma removing_a_field (x : Design) (key : string) :
  key ∈ required_keys →
  r_errors (calculate_asme_compliance (delete key (to_dict x)))
  = ["Calculation error: Missing inputs: " +:+ key].
Proof.
  intros Hkey.
  assert (Hone : filter (not_in (delete key (to_dict x))) required_keys
                 = [key]).
  { apply only_key_missing; [done|apply lookup_delete_eq|].
    intros k Hk Hne. rewrite lookup_delete_ne by done.
    by apply complete_has_key. }
  rewrite missing_input_report; rewrite Hone; done.
Qed.

End MissingInputs.

Lemma missing_input_aborts_witness :
  let r := calculate_asme_compliance (delete "tn" (to_dict scenario)) in
  r_errors r = ["Calculation error: Missing inputs: tn"]
  ∧ r_calculations r = no_calculations
  ∧ r_ug16 r = None ∧ r_ug45 r = None
  ∧ r_stresses r = no_stresses ∧ r_loads r = None
  ∧ r_compliant r = None.
Proof.
  destruct (missing_input_aborts (delete "tn" (to_dict scenario)) "tn")
    as (_ & _ & H & Hrest).
  - apply (bool_decide_unpack _). by vm_compute.
  - apply lookup_delete_eq.
  - split; [|exact Hrest]. apply H. intros k Hk Hne.
    rewrite lookup_delete_ne by done. by apply complete_has_key.
Defined.

(** ** The steps on any dictionary

    Each step either stores its section and nothing else, or raises and
    leaves the report as it was. *)

Lemma shell_step_shape (inputs : gmap string value) (r : Report) :
  match shell_step inputs r with
  | (Ok _, r') => ∃ v, r' = set_calc_shell v r
  | (Raise _, r') => r' = r
  end.
Proof. unfold shell_step. run_lifts. by eexists. Qed.

Lemma head_step_shape (inputs : gmap string value) (r : Report) :
  match head_step inputs r with
  | (Ok _, r') => ∃ v, r' = set_calc_head v r
  | (Raise _, r') => r' = r
  end.
Proof. unfold head_step. run_lifts. by eexists. Qed.

Lemma nozzle_step_shape (inputs : gmap string value) (r : Report) :
  match nozzle_step inputs r with
  | (Ok _, r') => ∃ v, r' = set_calc_nozzle v r
  | (Raise _, r') => r' = r
  end.
Proof. unfold nozzle_step. run_lifts. by eexists. Qed.

Lemma ug16_step_shape (inputs : gmap string value) (r : Report) :
  match ug16_step inputs r with
  | (Ok _, r') => ∃ v, r' = set_ug16 v r
  | (Raise _, r') => r' = r
  end.
Proof.
  unfold ug16_step. run_lifts.
  destruct (get_ug16_min_thickness _ _ _ _) as [m ref].
  run_lifts. by eexists.
Qed.

Lemma ug45_step_shape (inputs : gmap string value) (r : Report) :
  match ug45_step inputs r with
  | (Ok _, r') => ∃ v, r' = set_ug45 v r
  | (Raise _, r') => r' = r
  end.
Proof.
  unfold ug45_step. rewrite run_lift_bind.
  destruct (scan_table _ _ _) as [[nps found]|]; [|reflexivity].
  run_lifts. rewrite run_bind. unfold get_state at 1. cbv beta iota.
  run_lifts. by eexists.
Qed.

(** The stress analysis returns the three stresses and no ['errors'] entry,
    or leaves through the [KeyError] of its handler. *)
Lemma perform_stress_analysis_cases (inputs : gmap string value) :
  match perform_stress_analysis inputs with
  | Ok own =>
      sr_errors own = None
      ∧ ∃ a b c,
          sr_stresses own
          = {| stress_shell := Some a; stress_head := Some b;
               stress_nozzle := Some c |}
  | Raise e => e = KeyError "errors"
  end.
Proof.
  unfold perform_stress_analysis, stress_try.
  run_lifts. rewrite run_bind, run_modify. cbv beta iota.
  run_lifts. rewrite run_bind, run_modify. cbv beta iota.
  run_lifts. rewrite run_modify. split; [reflexivity|by eexists _, _, _].
Qed.

Lemma stress_step_shape (inputs : gmap string value) (r : Report) :
  match stress_step inputs r with
  | (Ok _, r') =>
      ∃ a b c,
        r' = set_stresses
               {| stress_shell := Some a; stress_head := Some b;
                  stress_nozzle := Some c |} r
  | (Raise _, r') => r' = r
  end.
Proof.
  unfold stress_step. rewrite run_lift_bind.
  pose proof (perform_stress_analysis_cases inputs) as H.
  destruct (perform_stress_analysis inputs) as [[st errs]|]; [|reflexivity].
  cbn in H. destruct H as [-> (a & b & c & ->)]. by exists a, b, c.
Qed.

Lemma validate_shape (inputs : gmap string value) (r : Report) :
  (validate inputs r).2 = r.
Proof. unfold validate. by destruct (filter _ _). Qed.

Lemma final_step_run (inputs : gmap string value) (r : Report) :
  final_step inputs r
  = match compliance_flags inputs r with
    | Ok flags => (Ok tt, set_compliant (all flags) r)
    | Raise e => (Raise e, r)
    end.
Proof.
  unfold final_step. rewrite run_bind. unfold get_state at 1.
  rewrite run_bind. unfold lift at 1.
  by destruct (compliance_flags inputs r).
Qed.


(** ** The shape of every report *)

Section Shapes.
Context {libm : c_library}.

Lemma load_step_shape (inputs : gmap string value) (r : Report) :
  match load_step inputs r with
  | (Ok _, r') => ∃ l, r' = set_loads (Some l) r
  | (Raise _, r') => r' = r
  end.
Proof.
  unfold load_step. rewrite run_lift_bind.
  pose proof (perform_load_analysis_cases inputs) as H.
  destruct (perform_load_analysis inputs) as [[ld errs]|]; [|reflexivity].
  cbn in H. destruct H as [-> [l ->]]. by exists l.
Qed.

Lemma compliance_try_shape (inputs : gmap string value) :
  match compliance_try inputs initial_report with
  | (Ok _, r) =>
      ∃ s h n u g a b c l v,
        r = set_compliant v
              (set_loads (Some l)
                 (set_stresses
                    {| stress_shell := Some a; stress_head := Some b;
                       stress_nozzle := Some c |}
                    (set_ug45 g
                       (set_ug16 u
                          (set_calc_nozzle n
                             (set_calc_head h
                                (set_calc_shell s initial_report)))))))
  | (Raise _, r) => r_errors r = [] ∧ r_compliant r = None
  end.
Proof.
  unfold compliance_try. rewrite run_bind.
  pose proof (validate_shape inputs initial_report) as H.
  destruct (validate inputs initial_report) as [[[]|e] r0];
    cbn [snd] in H; subst r0; [|done].
  rewrite run_bind.
  pose proof (shell_step_shape inputs initial_report) as H.
  destruct (shell_step inputs initial_report) as [[[]|e] r1];
    [destruct H as [s ->]|by subst r1].
  rewrite run_bind.
  pose proof (head_step_shape inputs (set_calc_shell s initial_report)) as H.
  destruct (head_step inputs _) as [[[]|e] r2];
    [destruct H as [h ->]|by subst r2].
  rewrite run_bind.
  pose proof (nozzle_step_shape inputs
                (set_calc_head h (set_calc_shell s initial_report))) as H.
  destruct (nozzle_step inputs _) as [[[]|e] r3];
    [destruct H as [n ->]|by subst r3].
  rewrite run_bind.
  pose proof (ug16_step_shape inputs
                (set_calc_nozzle n
                   (set_calc_head h (set_calc_shell s initial_report)))) as H.
  destruct (ug16_step inputs _) as [[[]|e] r4];
    [destruct H as [u ->]|by subst r4].
  rewrite run_bind.
  pose proof (ug45_step_shape inputs
                (set_ug16 u
                   (set_calc_nozzle n
                      (set_calc_head h (set_calc_shell s initial_report)))))
    as H.
  destruct (ug45_step inputs _) as [[[]|e] r5];
    [destruct H as [g ->]|by subst r5].
  rewrite run_bind.
  pose proof (stress_step_shape inputs
                (set_ug45 g
                   (set_ug16 u
                      (set_calc_nozzle n
                         (set_calc_head h (set_calc_shell s initial_report))))))
    as H.
  destruct (stress_step inputs _) as [[[]|e] r6];
    [destruct H as (a & b & c & ->)|by subst r6].
  rewrite run_bind.
  pose proof (load_step_shape inputs
                (set_stresses
                   {| stress_shell := Some a; stress_head := Some b;
                      stress_nozzle := Some c |}
                   (set_ug45 g
                      (set_ug16 u
                         (set_calc_nozzle n
                            (set_calc_head h
                               (set_calc_shell s initial_report)))))))
    as H.
  destruct (load_step inputs _) as [[[]|e] r7];
    [destruct H as [l ->]|by subst r7].
  rewrite final_step_run.
  destruct (compliance_flags inputs _) as [flags|e]; [|done].
  by exists s, h, n, u, g, a, b, c, l, (all flags).
Qed.

(** X1.  Whatever the dictionary, the report is of one of two kinds: no
    error, every section filled (the three thickness pairs, the
    minimum-thickness and reinforcement sections, the three stresses, the
    load section) and the overall boolean present; or exactly one error, of
    the form "Calculation error: ...", and no overall boolean.  A message of
    the stress or the load handler never appears. *)
Theorem report_complete_or_errored (inputs : gmap string value) :
  let r := calculate_asme_compliance inputs in
  (r_errors r = []
   ∧ is_Some (calc_shell (r_calculations r))
   ∧ is_Some (calc_head (r_calculations r))
   ∧ is_Some (calc_nozzle (r_calculations r))
   ∧ is_Some (r_ug16 r) ∧ is_Some (r_ug45 r)
   ∧ is_Some (stress_shell (r_stresses r))
   ∧ is_Some (stress_head (r_stresses r))
   ∧ is_Some (stress_nozzle (r_stresses r))
   ∧ is_Some (r_loads r) ∧ is_Some (r_compliant r))
  ∨ (∃ e, r_errors r = ["Calculation error: " +:+ str_exn e]
          ∧ r_compliant r = None).
Proof.
  intros r. unfold r, calculate_asme_compliance.
  pose proof (compliance_try_shape inputs) as H.
  destruct (compliance_try inputs initial_report) as [[[]|e] r'].
  - left. destruct H as (s & h & n & u & g & a & b & c & l & v & ->).
    cbn. split_and!; by eexists.
  - right. exists e. destruct H as [He Hc].
    cbn [r_errors r_compliant set_errors]. by rewrite He, Hc.
Qed.

(** X2.  Called on any dictionary, each of the two analyses either returns
    its whole section (three stresses, or the load section) without
    ['errors'] entry, or raises [KeyError('errors')]: whatever went wrong in
    its [try] block (a missing key, a division by zero, an overflow), the
    handler's own look-up fails, so no partial section and no "Stress
    analysis error" or "Load analysis error" message is ever returned. *)
Theorem analysis_whole_or_key_error (inputs : gmap string value) :
  match perform_stress_analysis inputs with
  | Ok own =>
      sr_errors own = None
      ∧ ∃ a b c,
          sr_stresses own
          = {| stress_shell := Some a; stress_head := Some b;
               stress_nozzle := Some c |}
  | Raise e => e = KeyError "errors"
  end
  ∧ match perform_load_analysis inputs with
    | Ok own => lr_errors own = None ∧ is_Some (lr_loads own)
    | Raise e => e = KeyError "errors"
    end.
Proof.
  split; [apply perform_stress_analysis_cases|apply perform_load_analysis_cases].
Qed.

End Shapes.

(** ** The aggregation *)

Lemma all_eight (a b c d e f g h : bool) :
  all [a; b; c; d; e; f; g; h] = a && b && c && d && e && f && g && h.
Proof. by destruct a, b, c, d, e, f, g, h. Qed.

Lemma compliance_flags_complete (x : Design) (r : Report) (u : UG16)
    (g : UG45) (a b c : float) :
  r_ug16 r = Some u → r_ug45 r = Some g →
  r_stresses r
  = {| stress_shell := Some a; stress_head := Some b;
       stress_nozzle := Some c |} →
  compliance_flags (to_dict x) r
  = Ok [ min_status (ug16_shell u); min_status (ug16_head u);
         min_status (ug16_nozzle u); ug45_status g;
         (a <=? i_S_shell x)%float; (b <=? i_S_head x)%float;
         (c <=? i_S_nozzle x)%float; load_status_of r ].
Proof.
  intros Hu Hg Hs.
  unfold compliance_flags, ug16_status, ug45_status_of, stress_of.
  rewrite Hu, Hg, Hs. autorewrite with inputs. reflexivity.
Qed.

Section Aggregation.
Context {libm : c_library}.

(** What the orchestrator returns on a complete input on which no step
    raises. *)
Lemma full_run (x : Design) (s h n a b c : float) (l : Loads) :
  shell_required x = Ok s → head_required x = Ok h →
  nozzle_required_of x = Ok n →
  shell_stress x = Ok a → head_stress x = Ok b → nozzle_stress x = Ok c →
  perform_load_analysis (to_dict x)
  = Ok {| lr_loads := Some l; lr_errors := None |} →
  calculate_asme_compliance (to_dict x)
  = set_compliant
      (min_status (ug16_shell (ug16_of x)) && min_status (ug16_head (ug16_of x))
       && min_status (ug16_nozzle (ug16_of x))
       && float_ge (i_tn x)
            (ug45_required
               (ug45_of x n (default largest_row (table_match (i_nozzle_od x)))))
       && (a <=? i_S_shell x)%float && (b <=? i_S_head x)%float
       && (c <=? i_S_nozzle x)%float && load_status l)
      (set_loads (Some l)
         (set_stresses
            {| stress_shell := Some a; stress_head := Some b;
               stress_nozzle := Some c |}
            (after_ug45 x s h n))).
Proof.
  intros Hs Hh Hn Ha Hb Hc Hl.
  unfold calculate_asme_compliance.
  rewrite compliance_try_complete, Hs, Hh, Hn, stress_analysis_complete,
    Ha, Hb, Hc, Hl.
  cbv zeta. unfold final_step. rewrite run_bind. unfold get_state at 1.
  erewrite run_bind, compliance_flags_complete; [|reflexivity..].
  unfold lift at 1, modify. rewrite all_eight. reflexivity.
Qed.

(** On a complete input either every step succeeds, or the evaluation stops
    at the first exception: with an error message, without load section and
    without overall boolean. *)
Lemma run_cases (x : Design) :
  (∃ s h n a b c l,
     shell_required x = Ok s ∧ head_required x = Ok h
     ∧ nozzle_required_of x = Ok n
     ∧ shell_stress x = Ok a ∧ head_stress x = Ok b ∧ nozzle_stress x = Ok c
     ∧ perform_load_analysis (to_dict x)
       = Ok {| lr_loads := Some l; lr_errors := None |})
  ∨ (r_loads (calculate_asme_compliance (to_dict x)) = None
     ∧ r_compliant (calculate_asme_compliance (to_dict x)) = None
     ∧ r_errors (calculate_asme_compliance (to_dict x)) ≠ []).
Proof.
  unfold calculate_asme_compliance.
  rewrite compliance_try_complete, stress_analysis_complete.
  destruct (shell_required x) as [s|e]; [|by right].
  destruct (head_required x) as [h|e]; [|by right].
  destruct (nozzle_required_of x) as [n|e]; [|by right].
  destruct (shell_stress x) as [a|e]; [|by right].
  destruct (head_stress x) as [b|e]; [|by right].
  destruct (nozzle_stress x) as [c|e]; [|by right].
  pose proof (perform_load_analysis_cases (to_dict x)) as Hl.
  destruct (perform_load_analysis (to_dict x)) as [[ol oe]|e]; [|by right].
  cbn in Hl. destruct Hl as [-> [l ->]].
  left. by exists s, h, n, a, b, c, l.
Qed.

(** A report without load section has no overall boolean: the exception
    that kept the load section away also ended the evaluation. *)
Lemma no_loads_no_verdict (inputs : gmap string value) :
  r_loads (calculate_asme_compliance inputs) = None →
  r_compliant (calculate_asme_compliance inputs) = None
  ∧ r_errors (calculate_asme_compliance inputs) ≠ [].
Proof.
  unfold calculate_asme_compliance.
  pose proof (compliance_try_shape inputs) as H.
  destruct (compliance_try inputs initial_report) as [[[]|e] r'].
  - by destruct H as (s & h & n & u & g & a & b & c & l & v & ->).
  - destruct H as [He Hc]. intros _.
    cbn [r_errors r_compliant set_errors]. by rewrite He, Hc.
Qed.

(** C1.  On a complete input on which all the sections are produced (the
    load section, the last of them, is there) the report has no error and
    its overall boolean is the conjunction of the three minimum-thickness
    flags, the reinforcement flag, the three comparisons of a stress with
    its allowable stress, and the load flag.  The second part of the claim
    fails: on every dictionary, a report without load section has no
    overall boolean at all, and an error instead.  So it is on the scenario
    with a shell exactly as thick as the corrosion allowance, where the
    stress analysis fails before the load analysis runs. *)
Theorem overall_compliance_is_conjunction :
  (∀ x : Design,
     let r := calculate_asme_compliance (to_dict x) in
     is_Some (r_loads r) →
     ∃ u g a b c l,
       r_errors r = []
       ∧ r_ug16 r = Some u ∧ r_ug45 r = Some g
       ∧ r_stresses r
         = {| stress_shell := Some a; stress_head := Some b;
              stress_nozzle := Some c |}
       ∧ r_loads r = Some l
       ∧ r_compliant r
         = Some (min_status (ug16_shell u) && min_status (ug16_head u)
                 && min_status (ug16_nozzle u) && ug45_status g
                 && (a <=? i_S_shell x)%float && (b <=? i_S_head x)%float
                 && (c <=? i_S_nozzle x)%float && load_status l))
  ∧ (∀ inputs : gmap string value,
       let r := calculate_asme_compliance inputs in
       r_loads r = None → r_compliant r = None ∧ r_errors r ≠ [])
  ∧ (let r := calculate_asme_compliance (to_dict worn_shell) in
     r_errors r = ["Calculation error: 'errors'"]
     ∧ r_loads r = None ∧ r_compliant r = None).
Proof.
  split_and!; [|apply no_loads_no_verdict|by vm_compute].
  intros x r Hloads.
  destruct (run_cases x) as [(s & h & n & a & b & c & l & Hs & Hh & Hn & Ha
                              & Hb & Hc & Hl)|(Hnone & _)].
  - unfold r. rewrite (full_run x s h n a b c l) by done.
    eexists _, _, a, b, c, l. split_and!; reflexivity.
  - unfold r in Hloads. rewrite Hnone in Hloads. by destruct Hloads.
Qed.

End Aggregation.

Lemma overall_compliance_is_conjunction_witness :
  r_compliant (calculate_asme_compliance (to_dict scenario)) = Some true
  ∧ r_compliant (calculate_asme_compliance (to_dict worn_shell)) = None.
Proof.
  destruct overall_compliance_is_conjunction as (H1 & H2 & _). split.
  - destruct (H1 scenario)
      as (u & g & a & b & c & l & _ & Hu & Hg & Hs & Hl & Hc);
      [vm_compute; by eexists|].
    rewrite Hc. f_equal.
    vm_compute in Hu, Hg, Hs, Hl.
    injection Hu as <-. injection Hg as <-. injection Hs as <- <- <-.
    injection Hl as <-. reflexivity.
  - apply (H2 (to_dict worn_shell)). by vm_compute.
Defined.

(** ** The sections stored before the analyses *)

Lemma update_stress_keeps (own : stress_results) (r : Report) :
  r_calculations (update_stress own r) = r_calculations r
  ∧ r_ug16 (update_stress own r) = r_ug16 r
  ∧ r_ug45 (update_stress own r) = r_ug45 r.
Proof. unfold update_stress. by destruct (sr_errors own). Qed.

Lemma update_load_keeps (own : load_results) (r : Report) :
  r_calculations (update_load own r) = r_calculations r
  ∧ r_ug16 (update_load own r) = r_ug16 r
  ∧ r_ug45 (update_load own r) = r_ug45 r.
Proof. unfold update_load. by destruct (lr_errors own). Qed.

Lemma final_step_keeps (inputs : gmap string value) (r : Report) :
  let r' := (final_step inputs r).2 in
  r_calculations r' = r_calculations r
  ∧ r_ug16 r' = r_ug16 r ∧ r_ug45 r' = r_ug45 r.
Proof.
  cbv zeta. rewrite final_step_run.
  by destruct (compliance_flags inputs r).
Qed.

Section Stored.
Context {libm : c_library}.

(** Once the three thickness formulas have returned, the thickness, the
    minimum-thickness and the reinforcement sections are in the report,
    whatever happens in the analyses that follow. *)
Lemma sections_stored (x : Design) (s h n : float) :
  shell_required x = Ok s → head_required x = Ok h →
  nozzle_required_of x = Ok n →
  let r := calculate_asme_compliance (to_dict x) in
  r_calculations r = r_calculations (after_thickness x s h n)
  ∧ r_ug16 r = Some (ug16_of x)
  ∧ r_ug45 r
    = Some (ug45_of x n (default largest_row (table_match (i_nozzle_od x)))).
Proof.
  intros Hs Hh Hn. unfold calculate_asme_compliance.
  rewrite compliance_try_complete, Hs, Hh, Hn. cbv zeta.
  destruct (perform_stress_analysis (to_dict x)) as [own|e]; [|done].
  destruct (perform_load_analysis (to_dict x)) as [own'|e].
  - pose proof (final_step_keeps (to_dict x)
      (update_load own' (update_stress own (after_ug45 x s h n)))) as Hf.
    destruct (final_step _ _) as [[?|e] r']; cbn [snd] in Hf;
      cbn [r_calculations r_ug16 r_ug45 set_errors];
      destruct Hf as (-> & -> & ->);
      destruct (update_load_keeps own' (update_stress own (after_ug45 x s h n)))
        as (-> & -> & ->);
      by destruct (update_stress_keeps own (after_ug45 x s h n))
        as (-> & -> & ->).
  - cbn [r_calculations r_ug16 r_ug45 set_errors].
    by destruct (update_stress_keeps own (after_ug45 x s h n))
      as (-> & -> & ->).
Qed.

End Stored.

(** ** A design without loads, on any library

    With the five loads that are read equal to zero the square of the
    diameter only divides a zero: the report is the same whatever the
    library returns for it, as long as that is not infinite and leaves the
    divisor positive. *)

Section Unloaded.
Context {libm : c_library}.

Lemma unloaded_analysis (x : Design) :
  unloaded x →
  perform_load_analysis (to_dict x)
  = Ok {| lr_loads :=
            Some {| axial := axial_of x; bending := 0; shear := 0;
                    equivalent := 0;
                    allowable := (i_S_nozzle x * 1.5)%float;
                    load_status := (0 <=? i_S_nozzle x * 1.5)%float |};
          lr_errors := None |}.
Proof.
  intros (HFx & HFy & HFz & HMx & HMy & Hden & Hd).
  destruct (float_pow2_returns (i_d x)) as (d2 & Hd2 & Hnear & _).
  { intros p Hp. by destruct (Hd p Hp). }
  apply (zero_loads_analysis x d2); try done. by destruct (Hd d2 Hnear).
Qed.

End Unloaded.

(** The report of an unloaded design is the one made on the library with
    the exact square. *)
Lemma unloaded_any_library {libm : c_library} (x : Design) :
  unloaded x →
  calculate_asme_compliance (libm := libm) (to_dict x)
  = calculate_asme_compliance (libm := exact_library) (to_dict x).
Proof.
  intros Hx. unfold calculate_asme_compliance.
  rewrite !compliance_try_complete.
  by rewrite (unloaded_analysis (libm := libm) x Hx),
    (unloaded_analysis (libm := exact_library) x Hx).
Qed.

Ltac unloaded_design :=
  unfold unloaded; split_and!; try reflexivity;
  intros p [->|[->| ->]]; by vm_compute.

(** The designs of the examples are unloaded: what is evaluated on them
    further down, on the library with the exact square, holds as it is on
    every library. *)
Lemma examples_unloaded :
  Forall unloaded
    [ scenario; oversize_nozzle; flat_head; high_pressure; critical_pressure;
      thin_shell; worn_shell ].
Proof.
  repeat (apply List.Forall_cons; [unloaded_design|]). apply List.Forall_nil.
Qed.

(** ** The nominal-size matcher *)

Lemma find_first {A} (f : A → bool) (l : list A) (a : A) :
  find f l = Some a →
  ∃ before after,
    l = (before ++ a :: after)%list
    ∧ Forall (fun b => f b = false) before ∧ f a = true.
Proof.
  induction l as [|b l IH]; [done|]. cbn [find].
  destruct (f b) eqn:Hb.
  - intros [= ->]. by exists [], l.
  - intros (before & after & -> & Hall & Ha)%IH.
    exists (b :: before), after. split_and!; [done| |done].
    by constructor.
Qed.

Lemma find_none_all {A} (f : A → bool) (l : list A) :
  find f l = None → Forall (fun b => f b = false) l.
Proof.
  induction l as [|b l IH]; [by constructor|]. cbn [find].
  destruct (f b) eqn:Hb; [done|]. intros H. constructor; [done|by apply IH].
Qed.

(** The table is in strictly ascending order of outer diameter, so the
    stable sort leaves it as it is. *)
Lemma table_ascending :
  ∀ i r r', UG45_TABLE !! i = Some r → UG45_TABLE !! (S i) = Some r' →
            (row_od r <? row_od r')%float = true.
Proof.
  intros i r r'.
  do 18 (destruct i as [|i]; [by intros [= <-] [= <-]|]). done.
Qed.

(** A target no larger than the largest outer diameter is matched. *)
Lemma table_match_some (target : float) :
  (target <=? 323.85)%float = true → is_Some (table_match target).
Proof.
  intros H. unfold table_match.
  destruct (find _ _) eqn:E; [by eexists|].
  apply find_none_all in E. rewrite sorted_table_is_table in E.
  rewrite Forall_forall in E.
  specialize (E largest_row). unfold float_ge in E. cbn [row_od largest_row] in E.
  rewrite E in H; [done|]. by apply (list_elem_of_lookup_2 _ 17).
Qed.

Section Matcher.
Context {libm : c_library}.

(** C7.  On a complete input whose thickness formulas are defined and whose
    target outer diameter is at most the largest of the table (323.85), the
    matcher stops on the first row, in the ascending order of the sorted
    table, whose outer diameter is at least the target; the table-required
    thickness is that row's wall thickness plus the corrosion allowance.
    The reinforcement-required thickness is the maximum of the formula's
    nozzle thickness and the table-required thickness: the value Python's
    [max] keeps, one of the two and, when both are numbers, at least each
    of them.  The check passes exactly when the nominal nozzle thickness
    [tn] is at least that maximum. *)
Theorem reinforcement_from_table (x : Design) (s h n : float) :
  shell_required x = Ok s → head_required x = Ok h →
  nozzle_required_of x = Ok n →
  (i_nozzle_od x <=? 323.85)%float = true →
  ∃ before row after g,
    sorted_by_od UG45_TABLE = (before ++ row :: after)%list
    ∧ Forall (fun r' => (i_nozzle_od x <=? row_od r')%float = false) before
    ∧ (i_nozzle_od x <=? row_od row)%float = true
    ∧ r_ug45 (calculate_asme_compliance (to_dict x)) = Some g
    ∧ let tn_table := (row_thickness row + i_CA x)%float in
      ug45_required g = (if (n <? tn_table)%float then tn_table else n)
      ∧ (ug45_required g = n ∨ ug45_required g = tn_table)
      ∧ ((n =? n)%float = true → (tn_table =? tn_table)%float = true →
         (n <=? ug45_required g)%float = true
         ∧ (tn_table <=? ug45_required g)%float = true)
      ∧ ug45_actual g = i_tn x
      ∧ ug45_status g = (ug45_required g <=? i_tn x)%float
      ∧ matched_size g = "NPS " +:+ row_nps row.
Proof.
  intros Hs Hh Hn Hod.
  destruct (table_match_some _ Hod) as [row Hrow].
  destruct (find_first _ _ _ Hrow) as (before & after & Heq & Hall & Hge).
  exists before, row, after, (ug45_of x n row).
  destruct (sections_stored x s h n Hs Hh Hn) as (_ & _ & ->).
  rewrite Hrow. cbn [default]. split_and!; try done.
  - apply py_max2_either.
  - intros Hn' Ht. split; [by apply py_max2_left|by apply py_max2_right].
Qed.

(** When no row is large enough, the required thickness comes from the
    largest row and the label is the one of the last row visited: the loop
    variable stays bound after the loop, so the test on the local names
    never selects the other label. *)
Lemma fallback_section (x : Design) (s h n : float) :
  shell_required x = Ok s → head_required x = Ok h →
  nozzle_required_of x = Ok n →
  table_match (i_nozzle_od x) = None →
  r_ug45 (calculate_asme_compliance (to_dict x))
  = Some {| ug45_required := py_max2 n (8.34 + i_CA x);
            ug45_actual := i_tn x;
            ug45_status := float_ge (i_tn x) (py_max2 n (8.34 + i_CA x));
            matched_size := "NPS 12" |}.
Proof.
  intros Hs Hh Hn Hnone.
  destruct (sections_stored x s h n Hs Hh Hn) as (_ & _ & ->).
  by rewrite Hnone.
Qed.

(** C6.  The scenario with a nozzle outer diameter of 400.0, beyond every
    row: nothing is raised and the table-required thickness is the largest
    row's 8.34 plus the corrosion allowance, but the matched size is the
    label of the largest row, "NPS 12", and not the fallback label
    "NPS 12+". *)
Theorem fallback_label_is_last_row :
  let r := calculate_asme_compliance (to_dict oversize_nozzle) in
  table_match (i_nozzle_od oversize_nozzle) = None
  ∧ r_errors r = []
  ∧ r_ug45 r
    = Some {| ug45_required := (8.34 + 1.5)%float;
              ug45_actual := 10;
              ug45_status := true;
              matched_size := "NPS 12" |}
  ∧ "NPS 12" ≠ "NPS 12+".
Proof.
  rewrite (unloaded_any_library oversize_nozzle) by unloaded_design.
  by vm_compute.
Qed.

End Matcher.

Lemma reinforcement_from_table_witness :
  ∃ before row after g,
    sorted_by_od UG45_TABLE = (before ++ row :: after)%list
    ∧ Forall (fun r' => (114.3 <=? row_od r')%float = false) before
    ∧ (114.3 <=? row_od row)%float = true
    ∧ r_ug45 (calculate_asme_compliance (to_dict scenario)) = Some g
    ∧ ug45_required g
      = (if (1.7123287671232876 <? row_thickness row + 1.5)%float
         then (row_thickness row + 1.5)%float else 1.7123287671232876%float)
    ∧ ug45_status g = (ug45_required g <=? 10)%float
    ∧ matched_size g = "NPS " +:+ row_nps row.
Proof.
  destruct (reinforcement_from_table scenario
              7.3099415204678353 7.2568940493468785 1.7123287671232876)
    as (before & row & after & g & H1 & H2 & H3 & H4 & H5 & _ & _ & _ & H6 & H7);
    [reflexivity..|].
  exists before, row, after, g.
  split; [exact H1|]. split; [exact H2|]. split; [exact H3|].
  split; [exact H4|]. split; [exact H5|]. split; [exact H6|exact H7].
Defined.

(** A target of 100.0 is matched by the row of outer diameter 101.60, the
    first that is at least 100.0; the row of 114.30 is the next one. *)
Example table_match_100 :
  table_match 100.0 = Some (NpsRow "3¬Ω" 90 101.60 5.02).
Proof. by vm_compute. Qed.

(** ** Errors of the thickness formulas *)

Section ThicknessErrors.
Context {libm : c_library}.

Lemma thickness_abort (x : Design) (e : exn) :
  first_thickness_error x e →
  calculate_asme_compliance (to_dict x)
  = set_errors ["Calculation error: " +:+ str_exn e] (thickness_partial x).
Proof.
  unfold first_thickness_error, calculate_asme_compliance, thickness_partial.
  rewrite compliance_try_complete.
  intros [Hs|[[Hs Hh]|(Hs & Hh & Hn)]].
  - by rewrite Hs.
  - destruct (shell_required x) as [s|]; [|done]. by rewrite Hh.
  - destruct (shell_required x) as [s|]; [|done].
    destruct (head_required x) as [h|]; [|done]. by rewrite Hn.
Qed.

(** The partial report has nothing beyond the thicknesses. *)
Lemma thickness_partial_sections (x : Design) :
  calc_nozzle (r_calculations (thickness_partial x)) = None
  ∧ r_ug16 (thickness_partial x) = None ∧ r_ug45 (thickness_partial x) = None
  ∧ r_stresses (thickness_partial x) = no_stresses
  ∧ r_loads (thickness_partial x) = None
  ∧ r_compliant (thickness_partial x) = None.
Proof.
  unfold thickness_partial.
  destruct (shell_required x); [destruct (head_required x)|]; done.
Qed.

Lemma invalid_head_type_raises (x : Design) :
  i_head_type x ∉ ["Hemispherical"; "Ellipsoidal"; "Torispherical"] →
  head_required x = Raise (ValueError "Invalid head type").
Proof.
  intros H. rewrite !not_elem_of_cons in H. destruct H as (H1 & H2 & H3 & _).
  unfold head_required, calculate_head_thickness.
  by rewrite !bool_decide_eq_false_2.
Qed.

(** With a known head type the head formula is the division of the head
    numerator by the head denominator. *)
Lemma valid_head_type_divides (x : Design) :
  i_head_type x ∈ ["Hemispherical"; "Ellipsoidal"; "Torispherical"] →
  ∃ den, head_denominator x = Some den
         ∧ head_required x = float_truediv (head_numerator x) den.
Proof.
  rewrite !elem_of_cons, elem_of_nil.
  unfold head_denominator, head_required, head_numerator,
    calculate_head_thickness.
  intros [->|[->|[->|[]]]]; cbn [bool_decide]; by eexists.
Qed.

(** C5, as the code has it.  An exception of a thickness formula (an
    invalid head type, a division by zero) is not handled at its step: it
    reaches the single handler of the orchestrator, which appends
    "Calculation error: " and the message to the error list, and the
    evaluation ends there.  The thicknesses stored before it stay in the
    report; no later step runs: no minimum-thickness, reinforcement, stress
    or load section and no overall boolean. *)
Theorem thickness_error_ends_evaluation (x : Design) (e : exn) :
  first_thickness_error x e →
  let r := calculate_asme_compliance (to_dict x) in
  r_errors r = ["Calculation error: " +:+ str_exn e]
  ∧ calc_shell (r_calculations r)
    = match shell_required x with
      | Ok s => Some {| required := s; actual := i_t x - i_CA x |}
      | Raise _ => None
      end
  ∧ calc_head (r_calculations r)
    = match shell_required x, head_required x with
      | Ok _, Ok h => Some {| required := h; actual := i_th_head x - i_CA x |}
      | _, _ => None
      end
  ∧ calc_nozzle (r_calculations r) = None
  ∧ r_ug16 r = None ∧ r_ug45 r = None
  ∧ r_stresses r = no_stresses ∧ r_loads r = None
  ∧ r_compliant r = None.
Proof.
  intros He r. unfold r. rewrite (thickness_abort x e He).
  destruct (thickness_partial_sections x) as (Hn & Hu & Hg & Hs & Hl & Hc).
  cbn [r_errors r_calculations r_ug16 r_ug45 r_stresses r_loads r_compliant
       set_errors].
  split_and!; try done; unfold thickness_partial;
    (destruct (shell_required x); [destruct (head_required x)|]); done.
Qed.

End ThicknessErrors.

Lemma thickness_error_ends_evaluation_witness :
  let r := calculate_asme_compliance (to_dict flat_head) in
  r_errors r = ["Calculation error: Invalid head type"]
  ∧ calc_shell (r_calculations r)
    = Some {| required := 7.3099415204678353; actual := 10.5 |}
  ∧ calc_head (r_calculations r) = None
  ∧ calc_nozzle (r_calculations r) = None
  ∧ r_ug16 r = None ∧ r_ug45 r = None
  ∧ r_stresses r = no_stresses ∧ r_loads r = None
  ∧ r_compliant r = None.
Proof.
  apply (thickness_error_ends_evaluation flat_head
           (ValueError "Invalid head type")).
  right. left. split; reflexivity.
Defined.

(** C5 does not hold on the scenario with the head type "Flat": the steps
    after the head thickness have not run (no nozzle thickness, no
    minimum-thickness, reinforcement, stress or load section), although each
    of the nozzle formula, the stress analysis and the load analysis
    returns on this input. *)
Lemma invalid_head_type_stops_all :
  let r := calculate_asme_compliance (to_dict flat_head) in
  r_errors r = ["Calculation error: Invalid head type"]
  ∧ calc_nozzle (r_calculations r) = None
  ∧ r_ug16 r = None ∧ r_ug45 r = None
  ∧ r_stresses r = no_stresses ∧ r_loads r = None
  ∧ is_Ok (nozzle_required_of flat_head) = true
  ∧ is_Ok (perform_stress_analysis (to_dict flat_head)) = true
  ∧ is_Ok (perform_load_analysis (to_dict flat_head)) = true.
Proof. by vm_compute. Qed.

(** The report when the shell is exactly as thick as the corrosion
    allowance: the shell stress divides by zero, the handler of the stress
    analysis raises on the missing ['errors'] entry of its own dictionary,
    and the orchestrator records that exception; the load analysis, which
    returns on this input, has not run. *)
Lemma stress_failure_report :
  let r := calculate_asme_compliance (to_dict worn_shell) in
  shell_stress worn_shell = Raise (ZeroDivisionError "float division by zero")
  ∧ perform_stress_analysis (to_dict worn_shell) = Raise (KeyError "errors")
  ∧ r_errors r = ["Calculation error: 'errors'"]
  ∧ r_stresses r = no_stresses ∧ r_loads r = None ∧ r_compliant r = None
  ∧ is_Ok (perform_load_analysis (to_dict worn_shell)) = true.
Proof. by vm_compute. Qed.

(** ** A degenerate thickness formula *)

Section Degenerate.
Context {libm : c_library}.

(** C3, as the code has it.  With a known head type, a thickness
    denominator that is exactly zero makes the division raise: the error
    list is ["Calculation error: float division by zero"] and the
    evaluation ends without minimum-thickness, reinforcement, stress or load
    section and without overall boolean.  A negative denominator is not
    detected: whenever none of the three denominators is zero, negative
    ones included, the three quotients are stored in the report as the
    required thicknesses, and the evaluation goes on with the
    minimum-thickness and the reinforcement section. *)
Theorem zero_denominator_is_reported (x : Design) :
  i_head_type x ∈ ["Hemispherical"; "Ellipsoidal"; "Torispherical"] →
  ((shell_denominator x =? 0)%float = true
   ∨ (∃ den, head_denominator x = Some den ∧ (den =? 0)%float = true)
   ∨ (nozzle_denominator x =? 0)%float = true →
   let r := calculate_asme_compliance (to_dict x) in
   r_errors r = ["Calculation error: float division by zero"]
   ∧ r_ug16 r = None ∧ r_ug45 r = None
   ∧ r_stresses r = no_stresses ∧ r_loads r = None
   ∧ r_compliant r = None)
  ∧ (∀ den, head_denominator x = Some den →
       (shell_denominator x =? 0)%float = false → (den =? 0)%float = false →
       (nozzle_denominator x =? 0)%float = false →
       let r := calculate_asme_compliance (to_dict x) in
       calc_shell (r_calculations r)
       = Some {| required := (i_P_int x * i_D x / shell_denominator x)%float;
                 actual := (i_t x - i_CA x)%float |}
       ∧ calc_head (r_calculations r)
         = Some {| required := (head_numerator x / den)%float;
                   actual := (i_th_head x - i_CA x)%float |}
       ∧ calc_nozzle (r_calculations r)
         = Some {| required :=
                     (i_P_int x * i_d x / nozzle_denominator x)%float;
                   actual := (i_tn x - i_CA x)%float |}
       ∧ is_Some (r_ug16 r) ∧ is_Some (r_ug45 r)).
Proof.
  intros Hty. destruct (valid_head_type_divides x Hty) as (den & Hd & Hh).
  split.
  - intros Hzero.
    cbv zeta.
    rewrite (thickness_abort x (ZeroDivisionError "float division by zero"));
      [by destruct (thickness_partial_sections x) as (_ & ? & ? & ? & ? & ?)|].
    unfold first_thickness_error.
    unfold shell_required, calculate_shell_thickness.
    fold (shell_denominator x).
    destruct (shell_denominator x =? 0)%float eqn:Es.
    { left. by apply float_truediv_zero. }
    right. rewrite (float_truediv_nonzero _ _ Es), Hh.
    destruct (den =? 0)%float eqn:Eh.
    { left. split; [done|]. by apply float_truediv_zero. }
    right. rewrite (float_truediv_nonzero _ _ Eh). split_and!; try done.
    unfold nozzle_required_of, calculate_nozzle_thickness.
    fold (nozzle_denominator x). apply float_truediv_zero.
    destruct Hzero as [?|[(den' & Hd' & ?)|?]]; [congruence| |done].
    rewrite Hd in Hd'. congruence.
  - intros den' Hd' Hs Hden Hn r. rewrite Hd in Hd'. injection Hd' as <-.
    destruct (sections_stored x
                (i_P_int x * i_D x / shell_denominator x)
                (head_numerator x / den)
                (i_P_int x * i_d x / nozzle_denominator x))
      as (Hc & Hu & Hg).
    + by apply float_truediv_nonzero.
    + rewrite Hh. by apply float_truediv_nonzero.
    + by apply float_truediv_nonzero.
    + unfold r. rewrite Hc, Hu, Hg. split_and!; try done; by eexists.
Qed.

End Degenerate.

Lemma zero_denominator_is_reported_witness :
  (let r := calculate_asme_compliance (to_dict critical_pressure) in
   r_errors r = ["Calculation error: float division by zero"]
   ∧ r_ug16 r = None ∧ r_ug45 r = None
   ∧ r_stresses r = no_stresses ∧ r_loads r = None
   ∧ r_compliant r = None)
  ∧ (let r := calculate_asme_compliance (to_dict high_pressure) in
     calc_shell (r_calculations r)
     = Some {| required := (300 * 50 / (2 * 138 * 1 - 1.2 * 300))%float;
               actual := (60 - 1.5)%float |}
     ∧ is_Some (r_ug16 r) ∧ is_Some (r_ug45 r)).
Proof.
  split.
  - destruct (zero_denominator_is_reported critical_pressure) as [H _].
    + rewrite !elem_of_cons. right. by left.
    + apply H. by left.
  - destruct (zero_denominator_is_reported high_pressure) as [_ H].
    + rewrite !elem_of_cons. right. by left.
    + destruct (H (2 * 138 * 1 - 0.2 * 300)%float)
        as (Hs & _ & _ & Hu & Hg); [reflexivity..|].
      by split_and!.
Defined.

(** C3 does not hold on the thick-walled vessel under a pressure of 300: the
    shell and nozzle denominators are negative and no error is reported;
    the negative required thicknesses are in the report and the overall
    verdict is "compliant".  The design is unloaded: this is the report on
    every library. *)
Lemma negative_denominator_unnoticed :
  let r := calculate_asme_compliance (to_dict high_pressure) in
  (shell_denominator high_pressure <? 0)%float = true
  ∧ (nozzle_denominator high_pressure <? 0)%float = true
  ∧ r_errors r = []
  ∧ calc_shell (r_calculations r)
    = Some {| required := (-178.57142857142858)%float; actual := 58.5 |}
  ∧ calc_nozzle (r_calculations r)
    = Some {| required := (-24.193548387096776)%float; actual := 18.5 |}
  ∧ r_compliant r = Some true.
Proof. by vm_compute. Qed.

(** ** The stress analyzer *)

(** A division raises nothing but [ZeroDivisionError]. *)
Lemma float_truediv_raises (a b : float) (e : exn) :
  float_truediv a b = Raise e →
  e = ZeroDivisionError "float division by zero".
Proof. unfold float_truediv. destruct (b =? 0)%float; congruence. Qed.

(** The body of the [try] on a complete input: the three divisions in
    turn, each stress stored before the next division. *)
Lemma stress_try_complete (x : Design) (r : stress_results) :
  stress_try (to_dict x) r
  = match shell_stress x with
    | Raise e => (Raise e, r)
    | Ok a =>
        match head_stress x with
        | Raise e => (Raise e, set_stress_shell a r)
        | Ok b =>
            match nozzle_stress x with
            | Raise e => (Raise e, set_stress_head b (set_stress_shell a r))
            | Ok c =>
                (Ok tt,
                 set_stress_nozzle c
                   (set_stress_head b (set_stress_shell a r)))
            end
        end
    end.
Proof.
  unfold stress_try, shell_stress, head_stress, nozzle_stress.
  autorewrite with inputs. rewrite !run_lift_Ok, run_lift_bind.
  destruct (float_truediv _ ((i_t x - i_CA x) * i_E_shell x)) as [a|e];
    [|reflexivity].
  rewrite run_bind, run_modify. cbv beta iota.
  rewrite !run_lift_Ok, run_lift_bind.
  destruct (float_truediv _ (4 * (i_th_head x - i_CA x) * i_E_head x))
    as [b|e]; [|reflexivity].
  rewrite run_bind, run_modify. cbv beta iota.
  rewrite !run_lift_Ok, run_lift_bind.
  destruct (float_truediv _ _) as [c|e]; reflexivity.
Qed.

(** When one of the three stress divisions raises, the body of the [try]
    raises [ZeroDivisionError]. *)
Lemma stress_try_raises (x : Design) (r : stress_results) :
  is_Ok (shell_stress x) && is_Ok (head_stress x) && is_Ok (nozzle_stress x)
  = false →
  ∃ st, stress_try (to_dict x) r
        = (Raise (ZeroDivisionError "float division by zero"), st).
Proof.
  rewrite stress_try_complete.
  destruct (shell_stress x) as [a|e] eqn:Ha.
  2: { intros _. rewrite (float_truediv_raises _ _ _ Ha). by eexists. }
  destruct (head_stress x) as [b|e] eqn:Hb.
  2: { intros _. rewrite (float_truediv_raises _ _ _ Hb). by eexists. }
  destruct (nozzle_stress x) as [c|e] eqn:Hc; [done|].
  intros _. rewrite (float_truediv_raises _ _ _ Hc). by eexists.
Qed.

Section StressAnalyzer.
Context {libm : c_library}.

(** The stress analysis raises as soon as one of its three divisions does;
    the orchestrator then records the exception that leaves the analysis
    and stops, with the sections stored so far. *)
Lemma stress_abort (x : Design) (s h n : float) :
  shell_required x = Ok s → head_required x = Ok h →
  nozzle_required_of x = Ok n →
  is_Ok (shell_stress x) && is_Ok (head_stress x) && is_Ok (nozzle_stress x)
  = false →
  ∃ msg, calculate_asme_compliance (to_dict x)
         = set_errors [msg] (after_ug45 x s h n).
Proof.
  intros Hs Hh Hn Hstress. unfold calculate_asme_compliance.
  rewrite compliance_try_complete, Hs, Hh, Hn, stress_analysis_complete.
  destruct (shell_stress x); [|by eexists].
  destruct (head_stress x); [|by eexists].
  destruct (nozzle_stress x); [done|by eexists].
Qed.

Lemma stresses_stored (x : Design) (s h n a b c : float) :
  shell_required x = Ok s → head_required x = Ok h →
  nozzle_required_of x = Ok n →
  shell_stress x = Ok a → head_stress x = Ok b → nozzle_stress x = Ok c →
  r_stresses (calculate_asme_compliance (to_dict x))
  = {| stress_shell := Some a; stress_head := Some b;
       stress_nozzle := Some c |}.
Proof.
  intros Hs Hh Hn Ha Hb Hc. unfold calculate_asme_compliance.
  rewrite compliance_try_complete, Hs, Hh, Hn, stress_analysis_complete,
    Ha, Hb, Hc.
  cbv zeta.
  destruct (perform_load_analysis (to_dict x)) as [own'|e]; [|done].
  rewrite final_step_run.
  destruct (compliance_flags _ _); unfold update_load;
    by destruct (lr_errors own').
Qed.

(** C4, as the code has it.  On a complete input whose thickness formulas
    are defined: when a corroded thickness is exactly zero (and the joint
    efficiency of that component finite) the stress division raises
    [ZeroDivisionError] inside the stress analysis, the report has an error
    in its error list, and it holds no stress value for that component.
    Nothing tests the sign of a corroded thickness: when the three stress
    divisors are not zero, negative ones included, the three stresses are
    computed from them and stored. *)
Theorem zero_thickness_stops_evaluation (x : Design) (s h n : float) :
  shell_required x = Ok s → head_required x = Ok h →
  nozzle_required_of x = Ok n →
  let shell_worn :=
    (i_t x - i_CA x =? 0)%float = true ∧ is_finite (i_E_shell x) = true in
  let head_worn :=
    (i_th_head x - i_CA x =? 0)%float = true
    ∧ is_finite (i_E_head x) = true in
  let nozzle_worn :=
    (i_tn x - i_CA x =? 0)%float = true ∧ is_finite (i_E_nozzle x) = true in
  let r := calculate_asme_compliance (to_dict x) in
  (shell_worn ∨ head_worn ∨ nozzle_worn →
   (∃ st, stress_try (to_dict x)
            {| sr_stresses := no_stresses; sr_errors := None |}
          = (Raise (ZeroDivisionError "float division by zero"), st))
   ∧ r_errors r ≠ []
   ∧ (shell_worn → stress_shell (r_stresses r) = None)
   ∧ (head_worn → stress_head (r_stresses r) = None)
   ∧ (nozzle_worn → stress_nozzle (r_stresses r) = None))
  ∧ (((i_t x - i_CA x) * i_E_shell x =? 0)%float = false →
     (4 * (i_th_head x - i_CA x) * i_E_head x =? 0)%float = false →
     ((i_tn x - i_CA x) * i_E_nozzle x =? 0)%float = false →
     r_stresses r
     = {| stress_shell :=
            Some (i_P_int x * (i_D x / 2)
                  / ((i_t x - i_CA x) * i_E_shell x))%float;
          stress_head :=
            Some (i_P_int x * i_D x
                  / (4 * (i_th_head x - i_CA x) * i_E_head x))%float;
          stress_nozzle :=
            Some (i_P_int x * (i_d x / 2)
                  / ((i_tn x - i_CA x) * i_E_nozzle x))%float |}).
Proof.
  intros Hs Hh Hn shell_worn head_worn nozzle_worn r. split.
  - intros Hzero.
    assert (Hfail : is_Ok (shell_stress x) && is_Ok (head_stress x)
                    && is_Ok (nozzle_stress x) = false).
    { unfold shell_stress, head_stress, nozzle_stress.
      destruct Hzero as [[Hz HE]|[[Hz HE]|[Hz HE]]].
      + by rewrite (float_truediv_zero _ _ (mul_zero_finite _ _ Hz HE)).
      + rewrite (float_truediv_zero _ (4 * _ * _)%float).
        * by rewrite andb_false_r.
        * apply mul_zero_finite; [|done]. by apply mul_finite_zero.
      + rewrite (float_truediv_zero _ ((i_tn x - i_CA x) * _)%float).
        * by rewrite andb_false_r.
        * by apply mul_zero_finite. }
    split; [by apply stress_try_raises|].
    unfold r. destruct (stress_abort x s h n Hs Hh Hn Hfail) as [msg ->].
    by split_and!.
  - intros H1 H2 H3.
    apply (stresses_stored x s h n); try done; by apply float_truediv_nonzero.
Qed.

End StressAnalyzer.

Lemma zero_thickness_stops_evaluation_witness :
  let r := calculate_asme_compliance (to_dict worn_shell) in
  r_errors r ≠ [] ∧ stress_shell (r_stresses r) = None
  ∧ r_stresses (calculate_asme_compliance (to_dict thin_shell))
    = {| stress_shell := Some (2 * (1000 / 2) / ((1 - 1.5) * 1))%float;
         stress_head := Some (2 * 1000 / (4 * (12 - 1.5) * 1))%float;
         stress_nozzle := Some (2 * (200 / 2) / ((10 - 1.5) * 1))%float |}.
Proof.
  destruct (zero_thickness_stops_evaluation worn_shell
              7.3099415204678353 7.2568940493468785 1.7123287671232876)
    as [H _]; [reflexivity..|].
  destruct H as (_ & He & Hshell & _); [left; split; reflexivity|].
  split; [exact He|]. split; [apply Hshell; split; reflexivity|].
  destruct (zero_thickness_stops_evaluation thin_shell
              7.3099415204678353 7.2568940493468785 1.7123287671232876)
    as [_ H]; [reflexivity..|].
  apply H; reflexivity.
Defined.

(** C4 does not hold on the scenario with a shell of 1.0 under a corrosion
    allowance of 1.5: the corroded thickness is negative, no error is
    reported, and the shell stress computed from it, -2000, is stored.  The
    design is unloaded: this is the report on every library. *)
Lemma negative_thickness_computed :
  let r := calculate_asme_compliance (to_dict thin_shell) in
  (i_t thin_shell - i_CA thin_shell <=? 0)%float = true
  ∧ r_errors r = []
  ∧ stress_shell (r_stresses r) = Some (-2000)%float
  ∧ r_compliant r = Some false.
Proof. by vm_compute. Qed.

(** ** The keys the orchestrator reads *)

Lemma filter_agree {A} (P Q : A → Prop) `{∀ a, Decision (P a)}
    `{∀ a, Decision (Q a)} (l : list A) :
  (∀ a, a ∈ l → P a ↔ Q a) → filter P l = filter Q l.
Proof.
  induction l as [|a l IH]; intros Hl; [done|].
  assert (Hrest : filter P l = filter Q l).
  { apply IH. intros b Hb. apply Hl. by right. }
  destruct (decide (P a)) as [HP|HP].
  - rewrite !filter_cons_True; [by f_equal| |done]. apply Hl; [by left|done].
  - rewrite !filter_cons_False; [done| |done].
    intros HQ. apply HP, Hl; [by left|done].
Qed.

Section SameReads.
Context {libm : c_library}.
Variables inputs inputs' : gmap string value.
Hypothesis same_presence :
  ∀ k, k ∈ required_keys → is_Some (inputs !! k) ↔ is_Some (inputs' !! k).
Hypothesis same_values : ∀ k, k ∈ read_keys → inputs !! k = inputs' !! k.

Lemma num_agree (k : string) : k ∈ read_keys → num inputs k = num inputs' k.
Proof. intros Hk. unfold num, getitem. by rewrite same_values. Qed.

Lemma text_agree (k : string) : k ∈ read_keys → text inputs k = text inputs' k.
Proof. intros Hk. unfold text, getitem. by rewrite same_values. Qed.

Lemma flag_agree (k : string) : k ∈ read_keys → flag inputs k = flag inputs' k.
Proof. intros Hk. unfold flag, getitem. by rewrite same_values. Qed.

Ltac read_key := apply (bool_decide_unpack _); vm_compute; exact I.
Ltac agree :=
  rewrite ?num_agree, ?text_agree, ?flag_agree by read_key.

Lemma validate_agree : validate inputs = validate inputs'.
Proof.
  unfold validate.
  rewrite (filter_agree (not_in inputs) (not_in inputs')); [done|].
  intros k Hk. unfold not_in. by rewrite same_presence.
Qed.

Lemma scan_table_agree (rows : list nps_row) (nps : option string) :
  scan_table inputs rows nps = scan_table inputs' rows nps.
Proof.
  revert nps. induction rows as [|row rows IH]; intros nps; [done|].
  cbn [scan_table]. agree. by rewrite IH.
Qed.

Lemma compliance_try_agree : compliance_try inputs = compliance_try inputs'.
Proof.
  unfold compliance_try. rewrite validate_agree.
  unfold shell_step, head_step, nozzle_step, ug16_step, min_check, ug45_step,
    stress_step, load_step, final_step, compliance_flags,
    perform_stress_analysis, stress_try, perform_load_analysis, load_try.
  rewrite scan_table_agree. agree. reflexivity.
Qed.

Lemma report_agree :
  calculate_asme_compliance inputs = calculate_asme_compliance inputs'.
Proof. unfold calculate_asme_compliance. by rewrite compliance_try_agree. Qed.

End SameReads.

Section UnreadEntries.
Context {libm : c_library}.

(** X3.  The report depends on the dictionary only through the 24 keys that
    are read and the presence of ['Mz']: an entry under any other key is
    ignored, and so is the value of the torsional moment, which is required
    to be present but never read. *)
Theorem unread_entries_are_ignored (inputs : gmap string value)
    (k : string) (v : value) :
  k ∉ required_keys ∨ (k = "Mz" ∧ is_Some (inputs !! "Mz")) →
  calculate_asme_compliance (<[k := v]> inputs)
  = calculate_asme_compliance inputs.
Proof.
  intros Hk. apply report_agree.
  - intros k' Hk'. destruct (decide (k = k')) as [<-|Hne].
    + rewrite lookup_insert_eq. destruct Hk as [Hk|[-> HMz]]; [done|].
      split; [done|by eexists].
    + by rewrite lookup_insert_ne.
  - intros k' Hk'. apply lookup_insert_ne. intros <-.
    destruct Hk as [Hk|[-> _]].
    + apply Hk. by apply list_elem_of_filter in Hk' as [_ ?].
    + by apply list_elem_of_filter in Hk' as [? _].
Qed.

End UnreadEntries.

Lemma unread_entries_are_ignored_witness :
  calculate_asme_compliance (<["Mz" := VFloat 1000000]> (to_dict scenario))
  = calculate_asme_compliance (to_dict scenario)
  ∧ calculate_asme_compliance (<["note" := VStr "draft"]> (to_dict scenario))
    = calculate_asme_compliance (to_dict scenario).
Proof.
  split; apply unread_entries_are_ignored.
  - right. split; [reflexivity|]. by eexists.
  - left. apply (bool_decide_unpack _). by vm_compute.
Defined.

(** ** The resolved minimum is never negative *)

Lemma zero_le_trans (b c : float) :
  (0 <=? b)%float = true → (b <=? c)%float = true → (0 <=? c)%float = true.
Proof.
  rewrite !FloatAxioms.leb_spec, Prim2SF_zero. unfold SFleb.
  destruct (Prim2SF b) as [s|s| |s m e], (Prim2SF c) as [s'|s'| |s' m' e'];
    cbn; try done; destruct s; try done; destruct s'; done.
Qed.

Lemma zero_le_lt (a b : float) :
  (0 <=? a)%float = true → (a <? b)%float = true → (0 <=? b)%float = true.
Proof.
  rewrite !FloatAxioms.leb_spec, FloatAxioms.ltb_spec, Prim2SF_zero.
  unfold SFleb, SFltb.
  destruct (Prim2SF a) as [s|s| |s m e], (Prim2SF b) as [s'|s'| |s' m' e'];
    cbn; try done; destruct s; try done; destruct s'; done.
Qed.

Lemma zero_le_lt_nonzero (a b : float) :
  (0 <=? a)%float = true → (a <? b)%float = true → (b =? 0)%float = false.
Proof.
  rewrite FloatAxioms.leb_spec, FloatAxioms.ltb_spec, FloatAxioms.eqb_spec,
    Prim2SF_zero.
  unfold SFleb, SFltb, SFeqb.
  destruct (Prim2SF a) as [s|s| |s m e], (Prim2SF b) as [s'|s'| |s' m' e'];
    cbn; try done; destruct s; try done; destruct s'; done.
Qed.

Lemma py_max2_not_negative (a b : float) :
  (0 <=? a)%float = true → (0 <=? py_max2 a b)%float = true.
Proof.
  intros Ha. unfold py_max2, float_gt.
  destruct (a <? b)%float eqn:Hab; [|done]. by apply (zero_le_lt a).
Qed.

Lemma ug16_lookup_cases (label : string) :
  (∃ e, label = equipment_label e) ∨ UG16_MINIMUMS !! label = None.
Proof.
  destruct (decide (label = "Pressure Vessel (Standard)")) as [->|H1];
    [left; by exists PressureVesselStandard|].
  destruct (decide (label = "Unfired Steam Boiler")) as [->|H2];
    [left; by exists UnfiredSteamBoiler|].
  destruct (decide (label = "Non-Code Construction")) as [->|H3];
    [left; by exists NonCodeConstruction|].
  right. apply ug16_unknown_equipment. by intros [].
Qed.

Lemma equipment_lookup_not_negative (label : string) :
  (0 <=? default 0 (UG16_MINIMUMS !! label))%float = true.
Proof.
  destruct (ug16_lookup_cases label) as [[e ->]| ->]; [by destruct e|done].
Qed.

(** X4.  Whatever the equipment and service labels, the override flag and
    the override value (negative or NaN included), the resolved minimum
    thickness is a number that is not negative. *)
Theorem ug16_minimum_not_negative (equipment_type service_type : string)
    (custom_min_enabled : bool) (custom_min : float) :
  (0 <=? (get_ug16_min_thickness equipment_type service_type
            custom_min_enabled custom_min).1)%float = true.
Proof.
  unfold get_ug16_min_thickness, py_max3. cbn [fst].
  apply py_max2_not_negative, py_max2_not_negative,
    equipment_lookup_not_negative.
Qed.

Section CompliantThickness.
Context {libm : c_library}.

(** X5.  A verdict of "compliant" is only given to a design whose three
    corroded thicknesses reach the resolved minimum, and are therefore not
    negative: the negative thicknesses that the stress analysis accepts
    never lead to a compliant report. *)
Theorem compliant_thickness_not_negative (x : Design) :
  r_compliant (calculate_asme_compliance (to_dict x)) = Some true →
  let minimum :=
    (get_ug16_min_thickness (i_equipment_type x) (i_service_type x)
       (i_custom_min_enabled x) (i_custom_min x)).1 in
  ((minimum <=? i_t x - i_CA x)%float = true
   ∧ (minimum <=? i_th_head x - i_CA x)%float = true
   ∧ (minimum <=? i_tn x - i_CA x)%float = true)
  ∧ (0 <=? i_t x - i_CA x)%float = true
  ∧ (0 <=? i_th_head x - i_CA x)%float = true
  ∧ (0 <=? i_tn x - i_CA x)%float = true.
Proof.
  intros Hc minimum.
  destruct (run_cases x) as [(s & h & n & a & b & c & l & Hs & Hh & Hn & Ha
                              & Hb & Hc' & Hl)|(_ & Hnone & _)];
    [|by rewrite Hnone in Hc].
  rewrite (full_run x s h n a b c l) in Hc by done.
  cbn [r_compliant set_compliant] in Hc. injection Hc as Hc.
  repeat (apply andb_prop in Hc as [Hc ?]).
  assert (Hmin : (0 <=? minimum)%float = true).
  { unfold minimum, get_ug16_min_thickness, py_max3. cbn [fst].
    apply py_max2_not_negative, py_max2_not_negative,
      equipment_lookup_not_negative. }
  assert (Kt : (minimum <=? i_t x - i_CA x)%float = true) by done.
  assert (Kh : (minimum <=? i_th_head x - i_CA x)%float = true) by done.
  assert (Kn : (minimum <=? i_tn x - i_CA x)%float = true) by done.
  split_and!; try done; by apply (zero_le_trans minimum).
Qed.

End CompliantThickness.

Lemma compliant_thickness_not_negative_witness :
  (2.5 <=? 12 - 1.5)%float = true ∧ (0 <=? 10 - 1.5)%float = true.
Proof.
  destruct (compliant_thickness_not_negative scenario)
    as ((H1 & _ & _) & _ & _ & H2); [by vm_compute|].
  split; [exact H1|exact H2].
Defined.

(** ** Justification and resolved minimum agree *)

Ltac settle_override v :=
  repeat match goal with
         | |- context [(?a <? v)%float] => destruct (a <? v)%float eqn:?
         end;
  split; intros HH; try done; try discriminate;
  match goal with
  | H : (?m <? v)%float = true |- _ =>
      rewrite (zero_le_lt_nonzero m v eq_refl H) in HH; discriminate
  end.

(** X6.  The justification is the sentinel "No UG-16 requirement" exactly
    when the resolved minimum is zero: a positive minimum is always
    justified by at least one clause, and a clause is only ever given for a
    positive minimum. *)
Theorem no_requirement_iff_zero (equipment_type service_type : string)
    (custom_min_enabled : bool) (custom_min : float) :
  let resolved :=
    get_ug16_min_thickness equipment_type service_type
      custom_min_enabled custom_min in
  resolved.2 = "No UG-16 requirement" ↔ (resolved.1 =? 0)%float = true.
Proof.
  unfold get_ug16_min_thickness. rewrite service_test. cbv zeta.
  destruct (ug16_lookup_cases equipment_type) as [[e ->]| ->];
    [destruct e|];
    (destruct (String.eqb_spec service_type "Water") as [->|?];
     [|destruct (String.eqb_spec service_type "Compressed Air") as [->|?];
       [|destruct (String.eqb_spec service_type "Steam") as [->|?]]]);
    destruct custom_min_enabled; vm_compute;
    first [by split | settle_override custom_min].
Qed.

(** ** The direction of the shear force and of the bending moment *)

Lemma num_insert_eq (inputs : gmap string value) (key : string) (v : float) :
  num (<[key := VFloat v]> inputs) key = Ok v.
Proof. unfold num, getitem. by rewrite lookup_insert_eq. Qed.

Lemma num_lookup (inputs : gmap string value) (key : string) (v : float) :
  inputs !! key = Some (VFloat v) → num inputs key = Ok v.
Proof. intros H. unfold num, getitem. by rewrite H. Qed.

Section Direction.
Context {libm : c_library}.

Ltac mirror_load inputs key H :=
  unfold perform_load_analysis, load_try;
  rewrite ?(num_insert_ne inputs key "d"), ?(num_insert_ne inputs key "tn"),
    ?(num_insert_ne inputs key "CA"), ?(num_insert_ne inputs key "Fz"),
    ?(num_insert_ne inputs key "Mx"), ?(num_insert_ne inputs key "My"),
    ?(num_insert_ne inputs key "Fx"), ?(num_insert_ne inputs key "Fy"),
    ?(num_insert_ne inputs key "S_nozzle") by done;
  rewrite num_insert_eq, (num_lookup _ _ _ H);
  repeat (rewrite !run_lift_bind; cbv beta iota;
          first
            [ rewrite float_pow2_opp; reflexivity
            | match goal with
              | |- context [match ?m with Ok _ => _ | Raise _ => _ end] =>
                  destruct m; [|reflexivity]
              end ]).

(** X7.  The load analysis reads the two shear forces and the two bending
    moments only through their squares: reversing the sign of any one of
    ['Fx'], ['Fy'], ['Mx'], ['My'] changes nothing in what the analysis
    returns or raises. *)
Theorem load_analysis_ignores_direction (inputs : gmap string value)
    (key : string) (v : float) :
  key ∈ ["Fx"; "Fy"; "Mx"; "My"] →
  inputs !! key = Some (VFloat v) →
  perform_load_analysis (<[key := VFloat (- v)]> inputs)
  = perform_load_analysis inputs.
Proof.
  rewrite !elem_of_cons, elem_of_nil.
  intros [->|[->|[->|[->|[]]]]] H.
  - mirror_load inputs "Fx" H.
  - mirror_load inputs "Fy" H.
  - mirror_load inputs "Mx" H.
  - mirror_load inputs "My" H.
Qed.

End Direction.

Lemma load_analysis_ignores_direction_witness :
  perform_load_analysis (<["Mx" := VFloat (PrimFloat.opp 5000)]>
                           (<["Mx" := VFloat 5000]> (to_dict scenario)))
  = perform_load_analysis (<["Mx" := VFloat 5000]> (to_dict scenario)).
Proof.
  apply (load_analysis_ignores_direction
           (<["Mx" := VFloat 5000]> (to_dict scenario)) "Mx" 5000).
  - rewrite !elem_of_cons. right. right. by left.
  - apply lookup_insert_eq.
Defined.

(** ** The label of the matched size *)

Lemma table_labels : Forall (fun row => row_nps row ≠ "12+") UG45_TABLE.
Proof. repeat constructor; done. Qed.

Lemma table_match_in_table (target : float) (row : nps_row) :
  table_match target = Some row → row ∈ UG45_TABLE.
Proof.
  intros (before & after & Heq & _)%find_first.
  rewrite sorted_table_is_table in Heq. rewrite Heq.
  apply elem_of_app. right. by left.
Qed.

Section MatchedSize.
Context {libm : c_library}.

(** X8.  On every complete input, a reinforcement section in the report
    carries as matched size "NPS " followed by the label of a row of the
    table; the label "NPS 12+" is never produced. *)
Theorem matched_size_is_a_table_label (x : Design) (g : UG45) :
  r_ug45 (calculate_asme_compliance (to_dict x)) = Some g →
  (∃ row, row ∈ UG45_TABLE ∧ matched_size g = "NPS " +:+ row_nps row)
  ∧ matched_size g ≠ "NPS 12+".
Proof.
  intros Hg.
  assert (Hrow : ∃ row, row ∈ UG45_TABLE
                        ∧ matched_size g = "NPS " +:+ row_nps row).
  { destruct (shell_required x) as [s|e] eqn:Hs.
    2: { assert (He : first_thickness_error x e) by by left.
         rewrite (thickness_abort x e He) in Hg.
         destruct (thickness_partial_sections x) as (_ & _ & Hn & _).
         cbn [r_ug45 set_errors] in Hg. by rewrite Hn in Hg. }
    destruct (head_required x) as [h|e] eqn:Hh.
    2: { assert (He : first_thickness_error x e).
         { right. left. by rewrite Hs. }
         rewrite (thickness_abort x e He) in Hg.
         destruct (thickness_partial_sections x) as (_ & _ & Hn & _).
         cbn [r_ug45 set_errors] in Hg. by rewrite Hn in Hg. }
    destruct (nozzle_required_of x) as [n|e] eqn:Hn.
    2: { assert (He : first_thickness_error x e).
         { right. right. by rewrite Hs, Hh. }
         rewrite (thickness_abort x e He) in Hg.
         destruct (thickness_partial_sections x) as (_ & _ & Hn' & _).
         cbn [r_ug45 set_errors] in Hg. by rewrite Hn' in Hg. }
    destruct (sections_stored x s h n Hs Hh Hn) as (_ & _ & Hu).
    rewrite Hu in Hg. injection Hg as <-.
    destruct (table_match (i_nozzle_od x)) as [row|] eqn:Hm.
    - exists row. split; [by apply (table_match_in_table (i_nozzle_od x))|done].
    - exists largest_row. split; [by apply (list_elem_of_lookup_2 _ 17)|done]. }
  split; [done|]. destruct Hrow as (row & Hin & ->).
  intros [= Hl]. revert Hin. pose proof table_labels as Hall.
  rewrite Forall_forall in Hall. intros Hin. by apply (Hall row).
Qed.

End MatchedSize.

Lemma matched_size_is_a_table_label_witness :
  (∃ row, row ∈ UG45_TABLE ∧ "NPS 12" = "NPS " +:+ row_nps row)
  ∧ "NPS 12" ≠ "NPS 12+".
Proof.
  apply (matched_size_is_a_table_label oversize_nozzle
           {| ug45_required := (8.34 + 1.5)%float; ug45_actual := 10;
              ug45_status := true; matched_size := "NPS 12" |}).
  by vm_compute.
Defined.
